(** * Agentic honey-pot: scam classifier, intelligence extractor, engagement
      agent and session orchestrator

    A shallow embedding of [scam_detector.py], [intelligence_extractor.py],
    [ai_agent.py] and the session handlers of [main.py], followed by the
    properties established for them.

    Conventions of the embedding.
    - Python [str] values are [string]s; the text handled is ASCII, so
      [str.lower], [str.isupper], [str.split] and the regular-expression
      classes [\D] and [\s] are given by their action on ASCII characters.
    - Python [float] is IEEE-754 binary64, embedded with the Standard
      Library's executable specification [SpecFloat] at precision 53.
    - [list(set(l))] enumerates the distinct elements of [l] in an order the
      program does not control; the order is a parameter ([SetOrder]).
    - [re.findall] for the five extractor patterns and the random source of
      the agent are parameters of the functions that use them.
    - Where a property is about the objects a function is handed and the
      ones it creates, the function is also embedded over a store of
      objects ([Store]), with its reads, allocations and writes. *)

From Stdlib Require Import ZArith Ascii String.
From Stdlib Require Import Floats.SpecFloat.
From stdpp Require Import base list strings gmap.

Local Open Scope Z_scope.

(** ** Python string primitives *)

Module Py.

Definition code (c : ascii) : N := N_of_ascii c.

(** [c.isdigit()] on ASCII, also the complement of the class [\D]. *)
Definition isdigit (c : ascii) : bool :=
  ((48 <=? code c) && (code c <=? 57))%N.

Definition char_isupper (c : ascii) : bool :=
  ((65 <=? code c) && (code c <=? 90))%N.

Definition char_islower (c : ascii) : bool :=
  ((97 <=? code c) && (code c <=? 122))%N.

(** [c.isspace()] on ASCII: TAB, LF, VT, FF, CR, FS, GS, RS, US, space. *)
Definition isspace (c : ascii) : bool :=
  (((9 <=? code c) && (code c <=? 13))
   || ((28 <=? code c) && (code c <=? 32)))%N.

Definition char_lower (c : ascii) : ascii :=
  if char_isupper c then ascii_of_N (code c + 32) else c.

(** [s.lower()] *)
Fixpoint lower (s : string) : string :=
  match s with
  | EmptyString => EmptyString
  | String c s' => String (char_lower c) (lower s')
  end.

(** [len(s)] *)
Definition len (s : string) : Z := Z.of_nat (String.length s).

(** [s.startswith(p)] *)
Definition startswith (s p : string) : bool := String.prefix p s.

(** [needle in hay] *)
Fixpoint contains (needle hay : string) : bool :=
  String.prefix needle hay
  || match hay with
     | EmptyString => false
     | String _ hay' => contains needle hay'
     end.

(** [any(w in s for w in ws)] *)
Definition any_in (ws : list string) (s : string) : bool :=
  existsb (fun w => contains w s) ws.

(** [s[n:]] for [0 <= n] *)
Fixpoint slice_from (n : nat) (s : string) : string :=
  match n, s with
  | O, _ => s
  | S _, EmptyString => EmptyString
  | S n', String _ s' => slice_from n' s'
  end.

(** [s[:n]] for [0 <= n] *)
Fixpoint slice_to (n : nat) (s : string) : string :=
  match n, s with
  | O, _ => EmptyString
  | S _, EmptyString => EmptyString
  | S n', String c s' => String c (slice_to n' s')
  end.

(** [s[-n:]] for [0 < n]: the last [n] characters, the whole of a shorter
    string. *)
Definition slice_last (n : nat) (s : string) : string :=
  slice_from (String.length s - n) s.

(** [c * k]: a negative or zero [k] gives the empty string. *)
Definition repeat_char (c : ascii) (k : Z) : string :=
  string_of_list_ascii (repeat c (Z.to_nat k)).

(** [re.sub(r'\D', '', s)] *)
Fixpoint strip_non_digits (s : string) : string :=
  match s with
  | EmptyString => EmptyString
  | String c s' =>
      if isdigit c then String c (strip_non_digits s')
      else strip_non_digits s'
  end.

(** [s.strip()] removes leading and trailing white space. *)
Fixpoint lstrip (s : string) : string :=
  match s with
  | EmptyString => EmptyString
  | String c s' => if isspace c then lstrip s' else s
  end.

Definition strip (s : string) : string :=
  String.rev (lstrip (String.rev (lstrip s))).

(** [s.replace(' ', '_')] *)
Fixpoint replace_space (s : string) : string :=
  match s with
  | EmptyString => EmptyString
  | String c s' =>
      String (if Ascii.eqb c " " then "_"%char else c) (replace_space s')
  end.

(** [sep.join(parts)] *)
Fixpoint join (sep : string) (parts : list string) : string :=
  match parts with
  | [] => ""
  | [p] => p
  | p :: rest => p +:+ sep +:+ join sep rest
  end.

(** [s.split()] splits on runs of white space, dropping empty words. *)
Definition split (s : string) : list string :=
  let fix go (cur : option string) (s : string) : list string :=
    match s with
    | EmptyString => option_list (String.rev <$> cur)
    | String a s' =>
        if isspace a
        then option_list (String.rev <$> cur) ++ go None s'
        else go (Some (String a (default "" cur))) s'
    end in
  go None s.

(** [s.isupper()]: at least one cased character and no lower-case one. *)
Definition isupper (s : string) : bool :=
  let cs := list_ascii_of_string s in
  existsb char_isupper cs && negb (existsb char_islower cs).

End Py.

(** ** Python [float]: IEEE-754 binary64 *)

Module F64.

Definition prec : Z := 53.
Definition emax : Z := 1024.

Definition float : Type := spec_float.

#[global] Instance float_eq_dec : EqDecision float.
Proof. solve_decision. Defined.

(** [float(n)] for an integer [n] *)
Definition of_Z (n : Z) : float := binary_normalize prec emax n 0 false.

Definition add : float → float → float := SFadd prec emax.
Definition mul : float → float → float := SFmul prec emax.
Definition div : float → float → float := SFdiv prec emax.
Definition ltb : float → float → bool := SFltb.
Definition leb : float → float → bool := SFleb.

(** A decimal literal [n / 10^k] denotes the double nearest to it, which
    is what the correctly rounded quotient of the two integers yields. *)
Definition lit (n d : Z) : float := div (of_Z n) (of_Z d).

Definition zero : float := of_Z 0.
Definition one : float := of_Z 1.

(** [min(a, b)]: the first argument unless the second is smaller. *)
Definition min (a b : float) : float := if ltb b a then b else a.

(** [a >= b] *)
Definition geb (a b : float) : bool := leb b a.

(** The integer nearest to [n / d] for [0 < d], ties to the even one. *)
Definition round_half_even (n d : Z) : Z :=
  let q := n / d in
  let r := n mod d in
  match 2 * r ?= d with
  | Lt => q
  | Gt => q + 1
  | Eq => if Z.even q then q else q + 1
  end.

(** [round(x, 2)]: the decimal with two fractional digits nearest to the
    exact value of [x], then the double nearest to that decimal. *)
Definition round2 (x : float) : float :=
  match x with
  | S754_finite s m e =>
      let k :=
        if 0 <=? e then 100 * Z.pos m * 2 ^ e
        else round_half_even (100 * Z.pos m) (2 ^ (- e)) in
      lit (if s then - k else k) 100
  | _ => x
  end.

End F64.

(** ** Shared data and library interfaces *)

(** A message as the transport hands it over ([Message.dict()]). *)
Record Message := mkMessage {
  sender : string;
  text : string;
  timestamp : string
}.

(** A session of the store ([sessions[session_id]]). *)
Record Session := mkSession {
  messages : list Message;
  scam_detected : bool;
  confidence_score : F64.float;
  intelligence : gmap string (list string);
  agent_notes : list string;
  created_at : string
}.

(** [list(set(l))]: the distinct elements of [l], in an order fixed by the
    interpreter's hashing and not by the program. *)
Class SetOrder := {
  list_set : list string → list string;
  list_set_NoDup : ∀ l, NoDup (list_set l);
  list_set_elem : ∀ l x, x ∈ list_set l ↔ x ∈ l
}.

(** One admissible order: first occurrences, left to right. *)
Definition first_seen_order : SetOrder := {|
  list_set := remove_dups;
  list_set_NoDup := NoDup_remove_dups;
  list_set_elem := λ l x, elem_of_remove_dups l x
|}.

(** Another one: first occurrences, right to left. *)
Lemma NoDup_reverse_remove_dups (l : list string) :
  NoDup (reverse (remove_dups l)).
Proof. rewrite reverse_Permutation. apply NoDup_remove_dups. Qed.

Lemma elem_of_reverse_remove_dups (l : list string) (x : string) :
  x ∈ reverse (remove_dups l) ↔ x ∈ l.
Proof. rewrite elem_of_reverse. apply elem_of_remove_dups. Qed.

Definition reversed_order : SetOrder := {|
  list_set := λ l, reverse (remove_dups l);
  list_set_NoDup := NoDup_reverse_remove_dups;
  list_set_elem := elem_of_reverse_remove_dups
|}.

(** [re.findall(pattern, text, flags)]: pattern, whether [re.IGNORECASE] is
    passed, and the text scanned. *)
Class Regex := re_findall : string → bool → string → list string.

(** ** Intelligence extractor ([intelligence_extractor.py]) *)

Module IntelligenceExtractor.

Import Py.

(** [_clean_and_validate_phones] *)
Fixpoint _clean_and_validate_phones (phone_matches : list string)
  : list string :=
  match phone_matches with
  | [] => []
  | phone :: rest =>
      let digits := strip_non_digits phone in
      if (10 <=? len digits) && (len digits <=? 15) then
        let formatted :=
          if startswith digits "91" && (len digits =? 12) then
            "+91" +:+ slice_from 2 digits
          else if startswith digits "0" && (len digits =? 11) then
            "+91" +:+ slice_from 1 digits
          else if len digits =? 10 then
            "+91" +:+ digits
          else
            "+" +:+ digits in
        formatted :: _clean_and_validate_phones rest
      else _clean_and_validate_phones rest
  end.

(** [_clean_and_validate_accounts] *)
Fixpoint _clean_and_validate_accounts (account_matches : list string)
  : list string :=
  match account_matches with
  | [] => []
  | account :: rest =>
      let clean := strip_non_digits account in
      if (9 <=? len clean) && (len clean <=? 18) then
        let masked :=
          if 8 <? len clean then
            slice_to 4 clean +:+ repeat_char "*" (len clean - 8)
              +:+ slice_last 4 clean
          else
            slice_to 4 clean +:+ repeat_char "*" (len clean - 4) in
        masked :: _clean_and_validate_accounts rest
      else _clean_and_validate_accounts rest
  end.

(** [_clean_and_validate_upi]; [upi.split('@')[-1]] is the text after the
    last [@], the whole string when there is none. *)
Fixpoint after_last_at (s : string) : string :=
  match s with
  | EmptyString => EmptyString
  | String c s' =>
      if contains "@" s' then after_last_at s'
      else if Ascii.eqb c "@" then s' else s
  end.

Definition valid_providers : list string :=
  ["paytm"; "phonepe"; "googlepay"; "ybl"; "okaxis";
   "oksbi"; "okicici"; "okhdfc"; "upi"; "apl"; "axl"].

Fixpoint _clean_and_validate_upi (upi_matches : list string) : list string :=
  match upi_matches with
  | [] => []
  | upi :: rest =>
      let upi := strip upi in
      if contains "@" upi && (5 <? len upi) then
        let provider := lower (after_last_at upi) in
        if existsb (fun p => contains p provider) valid_providers
           || (len provider <=? 10)
        then upi :: _clean_and_validate_upi rest
        else _clean_and_validate_upi rest
      else _clean_and_validate_upi rest
  end.

(** [re.sub(r'[.,;!?]+$', '', url)] on a stripped string: the trailing run
    of punctuation is removed. *)
Definition is_trailing_punct (c : ascii) : bool :=
  existsb (Ascii.eqb c) ["."; ","; ";"; "!"; "?"]%char.

Fixpoint drop_leading_punct (s : string) : string :=
  match s with
  | EmptyString => EmptyString
  | String c s' => if is_trailing_punct c then drop_leading_punct s' else s
  end.

Definition strip_trailing_punct (s : string) : string :=
  String.rev (drop_leading_punct (String.rev s)).

(** [_clean_and_validate_urls] *)
Fixpoint _clean_and_validate_urls (url_matches : list string) : list string :=
  match url_matches with
  | [] => []
  | url :: rest =>
      let url := strip url in
      let url := strip_trailing_punct url in
      let url :=
        if negb (startswith url "http://" || startswith url "https://") then
          if startswith url "www." then "http://" +:+ url
          else "http://" +:+ url
        else url in
      if contains "." url && (5 <? len url)
      then url :: _clean_and_validate_urls rest
      else _clean_and_validate_urls rest
  end.

(** The result dictionaries: five keys, each bound to a list of strings. *)
Definition empty_intelligence : gmap string (list string) :=
  <["suspiciousKeywords" := []]>
  (<["phoneNumbers" := []]>
  (<["phishingLinks" := []]>
  (<["upiIds" := []]>
  (<["bankAccounts" := []]> ∅)))).

(** [d[key].extend(items)] *)
Definition extend (key : string) (items : list string)
    (d : gmap string (list string)) : gmap string (list string) :=
  alter (fun l => l ++ items) key d.

(** [d.update(other)]: every key of [other] is rebound to [other]'s
    value, the remaining keys of [d] keep theirs. *)
Definition update (d other : gmap string (list string))
  : gmap string (list string) := other ∪ d.

Definition payment_apps : list string :=
  ["paytm"; "phonepe"; "google pay"; "gpay"; "bhim"; "whatsapp pay"].

Definition impersonation_targets : list string :=
  ["bank"; "police"; "income tax"; "government"; "customer care";
   "security team"; "fraud department"; "cyber cell"].

(** [_extract_contextual_intelligence] *)
Definition _extract_contextual_intelligence (text : string)
  : gmap string (list string) :=
  let additional_intel := empty_intelligence in
  let text_lower := lower text in
  let additional_intel :=
    if any_in ["tax refund"; "income tax"; "refund pending"] text_lower
    then extend "suspiciousKeywords"
           ["tax_refund_scam"; "government_impersonation"] additional_intel
    else additional_intel in
  let additional_intel :=
    if any_in ["won prize"; "lottery"; "winner"; "congratulations"] text_lower
    then extend "suspiciousKeywords"
           ["lottery_scam"; "prize_scam"] additional_intel
    else additional_intel in
  let additional_intel :=
    if any_in ["account blocked"; "account suspended"; "kyc pending"] text_lower
    then extend "suspiciousKeywords"
           ["account_block_scam"; "bank_impersonation"] additional_intel
    else additional_intel in
  let additional_intel :=
    if any_in ["share otp"; "tell otp"; "send otp"] text_lower
    then extend "suspiciousKeywords"
           ["otp_fraud"; "credential_theft"] additional_intel
    else additional_intel in
  let additional_intel :=
    if any_in ["click link"; "open link"; "visit website"] text_lower
    then extend "suspiciousKeywords"
           ["phishing_attempt"; "malicious_link"] additional_intel
    else additional_intel in
  let additional_intel :=
    if any_in ["transfer to"; "send money to"; "pay to"] text_lower
    then extend "suspiciousKeywords"
           ["payment_redirection"; "money_transfer_scam"] additional_intel
    else additional_intel in
  let mentioned_apps :=
    List.filter (fun app => contains app text_lower) payment_apps in
  let additional_intel :=
    match mentioned_apps with
    | [] => additional_intel
    | _ => extend "suspiciousKeywords"
             ((fun app => "uses_" +:+ replace_space app) <$> mentioned_apps)
             additional_intel
    end in
  let mentioned_targets :=
    List.filter (fun target => contains target text_lower)
      impersonation_targets in
  let additional_intel :=
    match mentioned_targets with
    | [] => additional_intel
    | _ => extend "suspiciousKeywords"
             ((fun target => "impersonates_" +:+ replace_space target)
                <$> mentioned_targets)
             additional_intel
    end in
  additional_intel.

(** [self.patterns], the entries [extract] scans with. *)
Definition pattern_upi : string := "\b[\w\.\-]+@[\w]+\b".
Definition pattern_phone : string :=
  "\+?\d{1,3}[-.\s]?\(?\d{1,4}\)?[-.\s]?\d{1,4}[-.\s]?\d{1,9}".
Definition pattern_account : string := "\b\d{9,18}\b".
Definition pattern_url : string :=
  "https?://[^\s]+|www\.[^\s]+|[a-z0-9\-]+\.[a-z]{2,}[^\s]*".
Definition pattern_ifsc : string := "\b[A-Z]{4}0[A-Z0-9]{6}\b".

Definition suspicious_keywords : list string :=
  ["urgent"; "immediate"; "verify"; "confirm"; "blocked"; "suspended";
   "expire"; "deadline"; "penalty"; "fine"; "arrest"; "legal action";
   "click here"; "download"; "install"; "otp"; "cvv"; "pin";
   "password"; "account number"; "card details"; "transfer money";
   "refund"; "cashback"; "prize"; "lottery"; "winner"; "reward";
   "tax refund"; "government"; "bank official"; "customer care"].

(** [" ".join(msg["text"] for msg in conversation
              if msg["sender"] == "scammer") + " " + latest_message] *)
Definition all_text_of (conversation : list Message)
    (latest_message : string) : string :=
  join " " (text <$> filter (λ msg, sender msg = "scammer") conversation)
    +:+ " " +:+ latest_message.

(** [extract] *)
Definition extract `{Regex} `{SetOrder} (conversation : list Message)
    (latest_message : string) : gmap string (list string) :=
  let intelligence := empty_intelligence in
  let all_text := all_text_of conversation latest_message in
  let upi_matches := re_findall pattern_upi true all_text in
  let intelligence :=
    <["upiIds" := _clean_and_validate_upi upi_matches]> intelligence in
  let phone_matches := re_findall pattern_phone false all_text in
  let intelligence :=
    <["phoneNumbers" := _clean_and_validate_phones phone_matches]>
      intelligence in
  let account_matches := re_findall pattern_account false all_text in
  let intelligence :=
    <["bankAccounts" := _clean_and_validate_accounts account_matches]>
      intelligence in
  let url_matches := re_findall pattern_url true all_text in
  let intelligence :=
    <["phishingLinks" := _clean_and_validate_urls url_matches]>
      intelligence in
  let ifsc_matches := re_findall pattern_ifsc false all_text in
  let intelligence :=
    extend "bankAccounts" ((λ ifsc, "IFSC:" +:+ ifsc) <$> ifsc_matches)
      intelligence in
  let text_lower := lower all_text in
  let found_keywords :=
    List.filter (λ kw, contains kw text_lower) suspicious_keywords in
  let intelligence :=
    <["suspiciousKeywords" := list_set found_keywords]> intelligence in
  let intelligence :=
    update intelligence (_extract_contextual_intelligence all_text) in
  list_set <$> intelligence.

End IntelligenceExtractor.

(** ** Scam detector ([scam_detector.py]) *)

Module ScamDetector.

Import Py.

Definition urgency_keywords : list string :=
  ["urgent"; "immediately"; "right now"; "expire"; "expires"; "expired";
   "today only"; "limited time"; "act now"; "hurry"; "quick"; "deadline";
   "suspend"; "suspended"; "blocked"; "block"; "freeze"; "frozen"].

Definition threat_keywords : list string :=
  ["account blocked"; "account suspended"; "legal action"; "arrest";
   "police"; "law enforcement"; "penalty"; "fine"; "criminal";
   "lawsuit"; "court"; "jail"; "prison"; "warrant"].

Definition request_keywords : list string :=
  ["verify"; "confirm"; "update"; "share"; "send"; "provide";
   "click here"; "link"; "download"; "install"; "open attachment";
   "enter password"; "enter pin"; "enter otp"; "card details";
   "cvv"; "expire date"].

Definition financial_keywords : list string :=
  ["bank account"; "credit card"; "debit card"; "upi"; "paytm";
   "phone pe"; "google pay"; "net banking"; "ifsc"; "account number";
   "cvv"; "pin"; "password"; "otp"; "transfer money"; "refund";
   "cashback"; "reward"; "prize"; "won"; "lottery"; "winner"].

Definition impersonation_keywords : list string :=
  ["we are from"; "calling from"; "representative"; "customer care";
   "support team"; "security team"; "fraud department"; "bank official";
   "government"; "tax department"; "income tax"; "rbi"; "sebi"].

(** [sum(1 for keyword in keywords if keyword in message_lower)] *)
Definition count_hits (keywords : list string) (message_lower : string) : Z :=
  Z.of_nat (length (List.filter (λ keyword, contains keyword message_lower)
                      keywords)).

(** [re.search(r'https?://[^\s]+|www\.[^\s]+', message)]: somewhere a
    scheme or [www.] is followed by a character that is not white space. *)
Definition then_nonspace (p s : string) : bool :=
  String.prefix p s
  && match slice_from (String.length p) s with
     | String c _ => negb (isspace c)
     | EmptyString => false
     end.

Fixpoint search_url (message : string) : bool :=
  then_nonspace "http://" message
  || then_nonspace "https://" message
  || then_nonspace "www." message
  || match message with
     | EmptyString => false
     | String _ rest => search_url rest
     end.

(** [re.search(r'[!?]{2,}', message)]: two adjacent marks. *)
Definition is_mark (c : ascii) : bool := Ascii.eqb c "!" || Ascii.eqb c "?".

Fixpoint search_repeated_marks (message : string) : bool :=
  match message with
  | String a (String b _ as rest) =>
      is_mark a && is_mark b || search_repeated_marks rest
  | _ => false
  end.

(** [_has_poor_grammar] *)
Definition _has_poor_grammar (message : string) : bool :=
  if search_repeated_marks message then true
  else if (10 <? len message) && isupper message then true
  else
    let words := split message in
    let n_words := Z.of_nat (length words) in
    if 5 <? n_words then
      let capitalized :=
        Z.of_nat (length (List.filter
          (λ word, match word with
                   | String c _ => char_isupper c
                   | EmptyString => false
                   end) words)) in
      if F64.ltb (F64.mul (F64.of_Z n_words) (F64.lit 7 10))
                 (F64.of_Z capitalized)
      then true else false
    else false.

Definition mem (x : string) (l : list string) : bool :=
  existsb (String.eqb x) l.

(** [_generate_notes] *)
Definition _generate_notes (indicators : list string)
    (confidence : F64.float) : string :=
  match indicators with
  | [] => "No significant scam indicators detected"
  | _ =>
      let clause tag sentence :=
        if mem tag indicators then [sentence] else [] in
      join "; "
        (clause "urgency_tactics" "Uses urgency to pressure victim"
         ++ clause "threatening_language" "Employs threats or intimidation"
         ++ clause "suspicious_requests" "Requests sensitive actions"
         ++ clause "financial_focus" "Focuses on financial information"
         ++ clause "impersonation_attempt" "Attempts to impersonate authority"
         ++ clause "contains_links" "Contains potentially malicious links"
         ++ clause "requests_sensitive_data"
              "Directly requests sensitive data (OTP/PIN/CVV)"
         ++ clause "unsolicited_contact"
              "Unsolicited contact from unknown source"
         ++ clause "poor_grammar" "Exhibits poor grammar/formatting")
  end.

(** The two accumulators of [analyze]. *)
Record Tally := mkTally {
  tally_indicators : list string;
  tally_score : F64.float
}.

(** [if count > 0: indicators.append(tag);
     confidence_score += min(count * weight, cap)] *)
Definition weigh (count : Z) (tag : string) (weight cap : F64.float)
    (t : Tally) : Tally :=
  if 0 <? count then
    mkTally (tally_indicators t ++ [tag])
      (F64.add (tally_score t)
         (F64.min (F64.mul (F64.of_Z count) weight) cap))
  else t.

(** [if present: indicators.append(tag); confidence_score += amount] *)
Definition flag (present : bool) (tag : string) (amount : F64.float)
    (t : Tally) : Tally :=
  if present then
    mkTally (tally_indicators t ++ [tag])
      (F64.add (tally_score t) amount)
  else t.

Record Classification := mkClassification {
  is_scam : bool;
  confidence : F64.float;
  indicators : list string;
  notes : string
}.

(** [analyze] *)
Definition analyze (message : string) (conversation_history : list string)
    (metadata : gmap string (option string)) : Classification :=
  let message_lower := lower message in
  let t := mkTally [] F64.zero in
  let t := weigh (count_hits urgency_keywords message_lower)
             "urgency_tactics" (F64.lit 15 100) (F64.lit 3 10) t in
  let t := weigh (count_hits threat_keywords message_lower)
             "threatening_language" (F64.lit 2 10) (F64.lit 4 10) t in
  let t := weigh (count_hits request_keywords message_lower)
             "suspicious_requests" (F64.lit 1 10) (F64.lit 25 100) t in
  let t := weigh (count_hits financial_keywords message_lower)
             "financial_focus" (F64.lit 12 100) (F64.lit 3 10) t in
  let t := weigh (count_hits impersonation_keywords message_lower)
             "impersonation_attempt" (F64.lit 15 100) (F64.lit 35 100) t in
  let t := flag (search_url message)
             "contains_links" (F64.lit 25 100) t in
  let t := flag (any_in ["otp"; "cvv"; "pin"; "password"; "card number"]
                   message_lower)
             "requests_sensitive_data" (F64.lit 35 100) t in
  let t :=
    if Z.of_nat (length conversation_history) =? 0 then
      flag (any_in ["we are from"; "calling from"; "this is"] message_lower)
        "unsolicited_contact" (F64.lit 2 10) t
    else t in
  let t := flag (_has_poor_grammar message)
             "poor_grammar" (F64.lit 1 10) t in
  let confidence_score := F64.min (tally_score t) F64.one in
  let is_scam :=
    F64.geb confidence_score (F64.lit 5 10)
    || (3 <=? Z.of_nat (length (tally_indicators t))) in
  let notes := _generate_notes (tally_indicators t) confidence_score in
  {| is_scam := is_scam;
     confidence := F64.round2 confidence_score;
     indicators := tally_indicators t;
     notes := notes |}.

End ScamDetector.

(** ** Engagement agent ([ai_agent.py]) *)

Module ScamEngagementAgent.

Import Py.

(** [random.choice(options)], the random source reduced to the number it
    draws. *)
Definition choice (rnd : nat) (options : list string) : string :=
  default "" (options !! (rnd mod length options)%nat).

Definition payment_triggers : list string :=
  ["payment"; "money"; "transfer"; "upi"; "account"; "refund"; "pin";
   "otp"; "pay"].

Definition link_triggers : list string :=
  ["click"; "link"; "download"; "install"; "website"].

(** [_determine_strategy]; the arguments [scam_indicators] and
    [session_context] are not read. *)
Definition _determine_strategy (rnd : nat) (incoming_message : string)
    (message_count : Z) (scam_indicators : list string)
    (session_context : Session) : string :=
  let message_lower := lower incoming_message in
  if message_count <=? 2 then
    if any_in payment_triggers message_lower then
      "request_payment_details"
    else if any_in ["urgent"; "immediately"; "block"] message_lower then
      choice rnd ["express_confusion"; "play_along"]
    else choice rnd ["ask_for_details"; "play_along"]
  else if message_count <=? 5 then
    if any_in ["verify"; "confirm"] message_lower then
      choice rnd ["play_along"; "request_verification"]
    else if any_in payment_triggers message_lower then
      "request_payment_details"
    else if any_in link_triggers message_lower then
      "play_along"
    else choice rnd ["play_along"; "ask_for_details"; "show_urgency"]
  else
    if any_in payment_triggers message_lower then
      "request_payment_details"
    else if any_in link_triggers message_lower then
      "play_along"
    else choice rnd ["play_along"; "show_urgency"; "ask_for_details"].

Definition suspicious_phrases : list string :=
  ["you are wasting my time";
   "stop asking questions";
   "just do it";
   "are you stupid";
   "why so many questions";
   "this is your last chance"].

(** [len(intelligence.get(key, [])) > 0] *)
Definition populated (intelligence : gmap string (list string))
    (key : string) : bool :=
  0 <? Z.of_nat (length (default [] (intelligence !! key))).

(** The text, lower-cased, of the first message from the scammer met
    when [recent_messages] is walked backwards. *)
Definition last_scammer_message (recent_messages : list Message)
  : option string :=
  (λ msg, lower (text msg))
    <$> List.find (λ msg, String.eqb (sender msg) "scammer")
          (reverse recent_messages).

(** [should_end_conversation] *)
Definition should_end_conversation (session : Session)
    (recent_messages : list Message) : bool :=
  let message_count := Z.of_nat (length (messages session)) in
  let intelligence := intelligence session in
  if 20 <=? message_count then true
  else
    let has_payment_info :=
      populated intelligence "upiIds"
      || populated intelligence "bankAccounts"
      || populated intelligence "phoneNumbers"
      || populated intelligence "phishingLinks" in
    let intel_types_count :=
      Z.of_nat (length (List.filter (populated intelligence)
        ["upiIds"; "bankAccounts"; "phoneNumbers"; "phishingLinks"])) in
    if has_payment_info && (2 <=? intel_types_count)
       && (12 <=? message_count) then true
    else
      match recent_messages with
      | [] => false
      | _ =>
          match last_scammer_message recent_messages with
          | Some last =>
              if negb (String.eqb last "") then
                if any_in suspicious_phrases last then true else false
              else false
          | None => false
          end
      end.

End ScamEngagementAgent.

(** ** Session handlers ([main.py]) *)

Module Main.

Import Py.

Record IncomingMessageRequest := mkRequest {
  sessionId : string;
  message : Message;
  conversationHistory : list Message;
  metadata : option (gmap string (option string))
}.

Record AgentResponse := mkAgentResponse {
  status : string;
  reply : string;
  scamDetected : option bool;
  confidenceScore : option F64.float
}.

Record FinalResultPayload := mkFinalResultPayload {
  final_sessionId : string;
  final_scamDetected : bool;
  totalMessagesExchanged : Z;
  extractedIntelligence : gmap string (list string);
  agentNotes : string
}.

(** What a handler hands back to the framework: a body, or a raised
    [HTTPException(status_code, detail)]. *)
Inductive Outcome (A : Type) : Type :=
| Returned (body : A)
| HTTPException (status_code : Z) (detail : string).
Arguments Returned {A} body.
Arguments HTTPException {A} status_code detail.

(** What one call of [handle_message] takes from outside the program:
    the clock readings and the reply the agent produces
    ([generate_response] or [generate_safe_response], drawn at random or
    from the language backend), or the text of the exception it raises. *)
Record Env := mkEnv {
  now_created : string;
  now_replied : string;
  agent_reply : string + string
}.

Definition new_session (now : string) : Session :=
  {| messages := [];
     scam_detected := false;
     confidence_score := F64.zero;
     intelligence := IntelligenceExtractor.empty_intelligence;
     agent_notes := [];
     created_at := now |}.

(** [for key in extracted_intel:
       if key in session["intelligence"]:
         session["intelligence"][key].extend(extracted_intel[key])
         session["intelligence"][key] = list(set(session["intelligence"][key]))] *)
Definition merge_intelligence `{SetOrder}
    (session_intel extracted_intel : gmap string (list string))
  : gmap string (list string) :=
  map_imap (λ key old,
    match extracted_intel !! key with
    | Some found => Some (list_set (old ++ found))
    | None => Some old
    end) session_intel.

(** [all_messages[-5:]] *)
Definition last_five (all_messages : list Message) : list Message :=
  drop (length all_messages - 5) all_messages.

(** [handle_message]: the response, the final report handed to the
    background callback when the conversation ends, and the store. *)
Definition handle_message `{Regex} `{SetOrder} (env : Env)
    (request : IncomingMessageRequest) (sessions : gmap string Session)
  : Outcome AgentResponse * option FinalResultPayload * gmap string Session :=
  let session_id := sessionId request in
  let incoming_message := message request in
  let conversation_history := conversationHistory request in
  let session :=
    match sessions !! session_id with
    | Some session => session
    | None => new_session (now_created env)
    end in
  let session_messages := messages session ++ [incoming_message] in
  let all_messages := conversation_history ++ [incoming_message] in
  let scam_result :=
    ScamDetector.analyze (text incoming_message)
      (text <$> conversation_history)
      (default ∅ (metadata request)) in
  let extracted_intel :=
    IntelligenceExtractor.extract all_messages (text incoming_message) in
  let session :=
    {| messages := session_messages;
       scam_detected := ScamDetector.is_scam scam_result;
       confidence_score := ScamDetector.confidence scam_result;
       intelligence :=
         merge_intelligence (intelligence session) extracted_intel;
       agent_notes := agent_notes session;
       created_at := created_at session |} in
  match agent_reply env with
  | inr error =>
      (HTTPException 500 ("Internal server error: " +:+ error), None,
       <[session_id := session]> sessions)
  | inl reply =>
      if ScamDetector.is_scam scam_result then
        let session :=
          {| messages :=
               messages session
               ++ [mkMessage "user" reply (now_replied env)];
             scam_detected := scam_detected session;
             confidence_score := confidence_score session;
             intelligence := intelligence session;
             agent_notes :=
               if negb (String.eqb (ScamDetector.notes scam_result) "")
               then agent_notes session ++ [ScamDetector.notes scam_result]
               else agent_notes session;
             created_at := created_at session |} in
        let should_end :=
          ScamEngagementAgent.should_end_conversation session
            (last_five all_messages) in
        let final_payload :=
          if should_end then
            Some {| final_sessionId := session_id;
                    final_scamDetected := true;
                    totalMessagesExchanged :=
                      Z.of_nat (length (messages session));
                    extractedIntelligence := intelligence session;
                    agentNotes :=
                      match agent_notes session with
                      | [] => "Scam engagement completed successfully"
                      | notes => join " | " notes
                      end |}
          else None in
        (Returned (mkAgentResponse "success" reply (Some true)
                     (Some (ScamDetector.confidence scam_result))),
         final_payload,
         <[session_id := session]> sessions)
      else
        (Returned (mkAgentResponse "success" reply (Some false)
                     (Some (ScamDetector.confidence scam_result))),
         None,
         <[session_id := session]> sessions)
  end.

Record DeleteBody := mkDeleteBody {
  delete_status : string;
  delete_message : string
}.

(** [delete_session] *)
Definition delete_session (session_id : string)
    (sessions : gmap string Session)
  : Outcome DeleteBody * gmap string Session :=
  match sessions !! session_id with
  | Some _ =>
      (Returned (mkDeleteBody "success"
                   ("Session " +:+ session_id +:+ " deleted")),
       delete session_id sessions)
  | None => (HTTPException 404 "Session not found", sessions)
  end.

End Main.

(** * Properties *)

Import Py IntelligenceExtractor.

(** ** Slicing *)

Section Slices.

Implicit Types (s p : string) (n : nat).

Lemma append_String c s1 s2 : String c s1 +:+ s2 = String c (s1 +:+ s2).
Proof. reflexivity. Qed.

Lemma length_append s1 s2 :
  String.length (s1 +:+ s2) = (String.length s1 + String.length s2)%nat.
Proof.
  induction s1 as [|c s1 IH]; [done|].
  rewrite append_String. cbn. by rewrite IH.
Qed.

Lemma slice_to_from n s : s = slice_to n s +:+ slice_from n s.
Proof.
  revert s; induction n as [|n IH]; intros [|c s]; cbn; try done.
  by rewrite append_String, <- IH.
Qed.

Lemma length_slice_from n s :
  String.length (slice_from n s) = (String.length s - n)%nat.
Proof. revert s; induction n as [|n IH]; intros [|c s]; cbn; auto with lia. Qed.

Lemma length_slice_to n s :
  (n ≤ String.length s)%nat → String.length (slice_to n s) = n.
Proof.
  revert s; induction n as [|n IH]; intros [|c s]; cbn; try lia.
  intros Hn. rewrite IH; lia.
Qed.

Lemma slice_from_slice_from n m s :
  slice_from n (slice_from m s) = slice_from (m + n) s.
Proof.
  revert s; induction m as [|m IH]; intros s; [done|].
  destruct s as [|c s]; cbn; [by destruct n | apply IH].
Qed.

Lemma startswith_split s p :
  startswith s p = true → s = p +:+ slice_from (String.length p) s.
Proof.
  unfold startswith. revert s; induction p as [|a p IH]; intros s; [done|].
  destruct s as [|b s]; cbn; [done|].
  destruct (ascii_dec a b) as [->|]; [|done].
  intros Hp. by rewrite append_String, <- (IH s Hp).
Qed.

Lemma length_repeat_char c k :
  String.length (repeat_char c k) = Z.to_nat k.
Proof.
  unfold repeat_char. induction (Z.to_nat k) as [|n IH]; cbn; [done|].
  by rewrite IH.
Qed.

End Slices.

(** ** The validators of the extractor *)

Lemma phones_cons (phone : string) (rest : list string) :
  _clean_and_validate_phones (phone :: rest)
  = _clean_and_validate_phones [phone] ++ _clean_and_validate_phones rest.
Proof. cbn. by repeat case_match. Qed.

Lemma accounts_cons (account : string) (rest : list string) :
  _clean_and_validate_accounts (account :: rest)
  = _clean_and_validate_accounts [account]
    ++ _clean_and_validate_accounts rest.
Proof. cbn. by repeat case_match. Qed.

(** C6. A phone candidate whose digits number 10 to 15 is emitted as [+91]
    and its last ten digits when there are twelve digits starting [91] or
    eleven starting [0], as [+91] and the digits when there are ten, and as
    [+] and the digits otherwise; any other candidate is dropped.  Every
    candidate of a list is treated on its own, and both ["9876543210"] and
    ["+919876543210"] come out as ["+919876543210"]. *)
Theorem phone_validator_normalizes (phone : string) :
  let digits := strip_non_digits phone in
  let emitted := _clean_and_validate_phones [phone] in
  (len digits = 12 → startswith digits "91" = true →
     ∃ last10, digits = "91" +:+ last10 ∧ len last10 = 10
               ∧ emitted = ["+91" +:+ last10])
  ∧ (len digits = 11 → startswith digits "0" = true →
     ∃ last10, digits = "0" +:+ last10 ∧ len last10 = 10
               ∧ emitted = ["+91" +:+ last10])
  ∧ (len digits = 10 → emitted = ["+91" +:+ digits])
  ∧ (10 ≤ len digits ≤ 15 →
     ¬ (len digits = 12 ∧ startswith digits "91" = true) →
     ¬ (len digits = 11 ∧ startswith digits "0" = true) →
     len digits ≠ 10 →
     emitted = ["+" +:+ digits])
  ∧ (len digits < 10 ∨ 15 < len digits → emitted = [])
  ∧ (∀ rest, _clean_and_validate_phones (phone :: rest)
             = emitted ++ _clean_and_validate_phones rest)
  ∧ _clean_and_validate_phones ["9876543210"] = ["+919876543210"]
  ∧ _clean_and_validate_phones ["+919876543210"] = ["+919876543210"].
Proof.
  intros digits emitted.
  assert (Hemitted : emitted =
    if (10 <=? len digits) && (len digits <=? 15) then
      [if startswith digits "91" && (len digits =? 12) then
         "+91" +:+ slice_from 2 digits
       else if startswith digits "0" && (len digits =? 11) then
         "+91" +:+ slice_from 1 digits
       else if len digits =? 10 then "+91" +:+ digits
       else "+" +:+ digits]
    else []) by reflexivity.
  split_and!.
  - intros Hn Hp. rewrite Hemitted, Hn, Hp. cbn.
    exists (slice_from 2 digits). split; [by apply startswith_split|].
    split; [|done]. unfold len in *. rewrite length_slice_from. lia.
  - intros Hn Hp. rewrite Hemitted, Hn, Hp. cbn. rewrite andb_false_r.
    exists (slice_from 1 digits). split; [by apply startswith_split|].
    split; [|done]. unfold len in *. rewrite length_slice_from. lia.
  - intros Hn. rewrite Hemitted, Hn. cbn. by rewrite !andb_false_r.
  - intros [Hlo Hhi] H12 H11 H10. rewrite Hemitted.
    destruct (Z.leb_spec 10 (len digits)); [|lia].
    destruct (Z.leb_spec (len digits) 15); [|lia]. cbn.
    destruct (Z.eqb_spec (len digits) 12), (startswith digits "91") eqn:?;
      cbn; try tauto;
    destruct (Z.eqb_spec (len digits) 11), (startswith digits "0") eqn:?;
      cbn; try tauto;
    destruct (Z.eqb_spec (len digits) 10); cbn; try tauto; lia.
  - intros [Hlo|Hhi]; rewrite Hemitted.
    + destruct (Z.leb_spec 10 (len digits)); [lia|done].
    + destruct (Z.leb_spec (len digits) 15); [lia|].
      by rewrite andb_false_r.
  - intros rest. apply phones_cons.
  - reflexivity.
  - reflexivity.
Qed.

Lemma phone_validator_normalizes_witness :
  (len (strip_non_digits "+91 98765-43210") = 12
   ∧ startswith (strip_non_digits "+91 98765-43210") "91" = true)
  ∧ ∃ last10, strip_non_digits "+91 98765-43210" = "91" +:+ last10
              ∧ len last10 = 10
              ∧ _clean_and_validate_phones ["+91 98765-43210"]
                = ["+91" +:+ last10].
Proof.
  split; [split; reflexivity|].
  apply (proj1 (phone_validator_normalizes "+91 98765-43210")); reflexivity.
Defined.

(** C7. An account candidate whose digits number 9 to 18 is emitted masked:
    its first four digits, one star for each digit between, and its last
    four digits (the source's other branch, for a length of at most 8, is
    the first four digits and [length - 4] stars); any other candidate is
    dropped.  ["123456789012"] masks to ["1234****9012"]. *)
Theorem account_validator_masks (account : string) :
  let clean := strip_non_digits account in
  let emitted := _clean_and_validate_accounts [account] in
  (9 ≤ len clean ≤ 18 →
     ∃ first4 middle last4,
       clean = first4 +:+ middle +:+ last4
       ∧ len first4 = 4 ∧ len last4 = 4
       ∧ emitted =
           [if 8 <? len clean
            then first4 +:+ repeat_char "*" (len clean - 8) +:+ last4
            else first4 +:+ repeat_char "*" (len clean - 4)]
       ∧ emitted = [first4 +:+ repeat_char "*" (len clean - 8) +:+ last4]
       ∧ len (repeat_char "*" (len clean - 8)) = len middle)
  ∧ (len clean < 9 ∨ 18 < len clean → emitted = [])
  ∧ (∀ rest, _clean_and_validate_accounts (account :: rest)
             = emitted ++ _clean_and_validate_accounts rest)
  ∧ _clean_and_validate_accounts ["123456789012"] = ["1234****9012"].
Proof.
  intros clean emitted.
  assert (Hemitted : emitted =
    if (9 <=? len clean) && (len clean <=? 18) then
      [if 8 <? len clean then
         slice_to 4 clean +:+ repeat_char "*" (len clean - 8)
           +:+ slice_last 4 clean
       else slice_to 4 clean +:+ repeat_char "*" (len clean - 4)]
    else []) by reflexivity.
  split_and!.
  - intros [Hlo Hhi]. rewrite Hemitted.
    destruct (Z.leb_spec 9 (len clean)); [|lia].
    destruct (Z.leb_spec (len clean) 18); [|lia].
    destruct (Z.ltb_spec 8 (len clean)); [|lia]. cbn.
    set (n := String.length clean).
    assert (Hn : len clean = Z.of_nat n) by done.
    exists (slice_to 4 clean), (slice_to (n - 8) (slice_from 4 clean)),
           (slice_last 4 clean).
    split_and!; [| | |done|done|].
    + unfold slice_last. fold n.
      replace (n - 4)%nat with (4 + (n - 8))%nat by lia.
      rewrite <- slice_from_slice_from.
      rewrite <- (slice_to_from (n - 8)). apply slice_to_from.
    + unfold len. rewrite length_slice_to; [done | fold n; lia].
    + unfold len, slice_last. rewrite length_slice_from. fold n. lia.
    + unfold len. rewrite length_repeat_char, length_slice_to.
      * fold n. lia.
      * rewrite length_slice_from. fold n. lia.
  - intros [Hlo|Hhi]; rewrite Hemitted.
    + destruct (Z.leb_spec 9 (len clean)); [lia|done].
    + destruct (Z.leb_spec (len clean) 18); [lia|].
      by rewrite andb_false_r.
  - intros rest. apply accounts_cons.
  - reflexivity.
Qed.

Lemma account_validator_masks_witness :
  9 ≤ len (strip_non_digits "123456789012") ≤ 18
  ∧ ∃ first4 middle last4,
      strip_non_digits "123456789012" = first4 +:+ middle +:+ last4
      ∧ len first4 = 4 ∧ len last4 = 4
      ∧ _clean_and_validate_accounts ["123456789012"] =
          [if 8 <? len (strip_non_digits "123456789012")
           then first4
                +:+ repeat_char "*" (len (strip_non_digits "123456789012") - 8)
                +:+ last4
           else first4
                +:+ repeat_char "*" (len (strip_non_digits "123456789012") - 4)]
      ∧ _clean_and_validate_accounts ["123456789012"] =
          [first4
           +:+ repeat_char "*" (len (strip_non_digits "123456789012") - 8)
           +:+ last4]
      ∧ len (repeat_char "*" (len (strip_non_digits "123456789012") - 8))
        = len middle.
Proof.
  split; [vm_compute; split; discriminate|].
  apply (proj1 (account_validator_masks "123456789012")).
  vm_compute; split; discriminate.
Defined.

(** ** The scam detector *)

Section Detector.

Import ScamDetector.

(** What one category adds to the score, if it registers at all. *)
Definition contribution (count : Z) (weight cap : F64.float)
  : option F64.float :=
  if 0 <? count
  then Some (F64.min (F64.mul (F64.of_Z count) weight) cap)
  else None.

Definition credit (tag : string) (amount : option F64.float) (t : Tally)
  : Tally :=
  match amount with
  | Some a => mkTally (tally_indicators t ++ [tag]) (F64.add (tally_score t) a)
  | None => t
  end.

Lemma weigh_credit count tag weight cap t :
  weigh count tag weight cap t = credit tag (contribution count weight cap) t.
Proof. unfold weigh, contribution. by destruct (0 <? count). Qed.

Lemma flag_credit present tag amount t :
  flag present tag amount t
  = credit tag (if present then Some amount else None) t.
Proof. by destruct present. Qed.

(** The amounts a category can add: nothing, or one of the few values
    its weight and cap allow. *)
Definition amounts (values : list (Z * Z)) : list (option F64.float) :=
  None :: ((λ v, Some (F64.lit v.1 v.2)) <$> values).

Definition categories : list (string * list (option F64.float)) :=
  [("urgency_tactics", amounts [(15, 100); (3, 10)]);
   ("threatening_language", amounts [(2, 10); (4, 10)]);
   ("suspicious_requests", amounts [(1, 10); (2, 10); (25, 100)]);
   ("financial_focus", amounts [(12, 100); (24, 100); (3, 10)]);
   ("impersonation_attempt", amounts [(15, 100); (3, 10); (35, 100)]);
   ("contains_links", amounts [(25, 100)]);
   ("requests_sensitive_data", amounts [(35, 100)]);
   ("unsolicited_contact", amounts [(2, 10)]);
   ("poor_grammar", amounts [(1, 10)])].

(** Every tally the nine steps of [analyze] can end in. *)
Fixpoint tallies (cats : list (string * list (option F64.float)))
    (t : Tally) : list Tally :=
  match cats with
  | [] => [t]
  | (tag, options) :: rest =>
      options ≫= (λ amount, tallies rest (credit tag amount t))
  end.

(** What [analyze] makes of a finished tally. *)
Definition verdict (t : Tally) : Classification :=
  let confidence_score := F64.min (tally_score t) F64.one in
  {| is_scam :=
       F64.geb confidence_score (F64.lit 5 10)
       || (3 <=? Z.of_nat (length (tally_indicators t)));
     confidence := F64.round2 confidence_score;
     indicators := tally_indicators t;
     notes := _generate_notes (tally_indicators t) confidence_score |}.

(** The properties of a verdict, as a check that can be run. *)
Definition well_formed (r : Classification) : bool :=
  F64.leb F64.zero (confidence r)
  && F64.leb (confidence r) F64.one
  && bool_decide (is_scam r =
       (F64.geb (confidence r) (F64.lit 5 10)
        || (3 <=? Z.of_nat (length (indicators r)))))
  && bool_decide (NoDup (indicators r)).

Lemma count_hits_range keywords message_lower :
  0 ≤ count_hits keywords message_lower ≤ Z.of_nat (length keywords).
Proof.
  unfold count_hits. split; [lia|].
  apply inj_le, List.filter_length_le.
Qed.

Lemma contribution_amounts keywords weight cap
    (options : list (option F64.float)) message_lower :
  Forall (λ c, contribution c weight cap ∈ options)
    (seqZ 0 (Z.of_nat (length keywords) + 1)) →
  contribution (count_hits keywords message_lower) weight cap ∈ options.
Proof.
  intros Hall. rewrite Forall_forall in Hall. apply Hall.
  apply elem_of_seqZ. pose proof (count_hits_range keywords message_lower).
  lia.
Qed.

Lemma flag_amounts (present : bool) v :
  (if present then Some (F64.lit v.1 v.2) else None) ∈ amounts [v].
Proof. destruct present; unfold amounts; cbn; set_solver. Qed.

Lemma tallies_step tag options rest amount t t' :
  amount ∈ options →
  t' ∈ tallies rest (credit tag amount t) →
  t' ∈ tallies ((tag, options) :: rest) t.
Proof. intros ??. cbn. apply list_elem_of_bind. eauto. Qed.

Ltac amounts_by_computation :=
  apply contribution_amounts; apply (bool_decide_unpack _);
  vm_compute; exact I.

Lemma tallies_all o1 o2 o3 o4 o5 o6 o7 o8 o9 :
  o1 ∈ amounts [(15, 100); (3, 10)] →
  o2 ∈ amounts [(2, 10); (4, 10)] →
  o3 ∈ amounts [(1, 10); (2, 10); (25, 100)] →
  o4 ∈ amounts [(12, 100); (24, 100); (3, 10)] →
  o5 ∈ amounts [(15, 100); (3, 10); (35, 100)] →
  o6 ∈ amounts [(25, 100)] →
  o7 ∈ amounts [(35, 100)] →
  o8 ∈ amounts [(2, 10)] →
  o9 ∈ amounts [(1, 10)] →
  credit "poor_grammar" o9
    (credit "unsolicited_contact" o8
      (credit "requests_sensitive_data" o7
        (credit "contains_links" o6
          (credit "impersonation_attempt" o5
            (credit "financial_focus" o4
              (credit "suspicious_requests" o3
                (credit "threatening_language" o2
                  (credit "urgency_tactics" o1
                    (mkTally [] F64.zero)))))))))
  ∈ tallies categories (mkTally [] F64.zero).
Proof.
  intros. unfold categories.
  apply (tallies_step _ _ _ o1); [done|].
  apply (tallies_step _ _ _ o2); [done|].
  apply (tallies_step _ _ _ o3); [done|].
  apply (tallies_step _ _ _ o4); [done|].
  apply (tallies_step _ _ _ o5); [done|].
  apply (tallies_step _ _ _ o6); [done|].
  apply (tallies_step _ _ _ o7); [done|].
  apply (tallies_step _ _ _ o8); [done|].
  apply (tallies_step _ _ _ o9); [done|].
  cbn. apply list_elem_of_here.
Qed.

Lemma analyze_verdict message conversation_history metadata :
  ∃ t, t ∈ tallies categories (mkTally [] F64.zero)
       ∧ analyze message conversation_history metadata = verdict t.
Proof.
  unfold analyze.
  set (message_lower := lower message).
  assert (Hhist : ∀ present tag amount t,
    (if Z.of_nat (length conversation_history) =? 0
     then flag present tag amount t else t)
    = flag ((Z.of_nat (length conversation_history) =? 0) && present)
        tag amount t).
  { intros. by destruct (_ =? 0). }
  rewrite Hhist. rewrite !weigh_credit, !flag_credit.
  eexists. split; [|reflexivity].
  apply tallies_all.
  - amounts_by_computation.
  - amounts_by_computation.
  - amounts_by_computation.
  - amounts_by_computation.
  - amounts_by_computation.
  - apply (flag_amounts _ (25, 100)).
  - apply (flag_amounts _ (35, 100)).
  - apply (flag_amounts _ (2, 10)).
  - apply (flag_amounts _ (1, 10)).
Qed.

Lemma verdicts_well_formed :
  Forall (λ t, well_formed (verdict t) = true)
    (tallies categories (mkTally [] F64.zero)).
Proof.
  apply Forall_forall. intros t Ht.
  assert (H : forallb (λ t, well_formed (verdict t))
                (tallies categories (mkTally [] F64.zero)) = true)
    by (vm_compute; reflexivity).
  rewrite forallb_forall in H. apply H. by apply list_elem_of_In.
Qed.

(** C2. Whatever the message, the history and the metadata, [analyze]
    returns a confidence between 0 and 1 and an [is_scam] equal to
    "confidence at least 0.5, or at least three indicators"; the
    indicators are pairwise distinct, so their number is that of the
    indicator set, and three of them force [is_scam]. *)
Theorem analyze_confidence_and_decision (message : string)
    (conversation_history : list string)
    (metadata : gmap string (option string)) :
  let result := analyze message conversation_history metadata in
  (F64.leb F64.zero (confidence result) = true
   ∧ F64.leb (confidence result) F64.one = true)
  ∧ is_scam result =
      (F64.geb (confidence result) (F64.lit 5 10)
       || (3 <=? Z.of_nat (length (indicators result))))
  ∧ NoDup (indicators result)
  ∧ ((3 ≤ length (indicators result))%nat → is_scam result = true).
Proof.
  destruct (analyze_verdict message conversation_history metadata)
    as (t & Ht & ->).
  pose proof verdicts_well_formed as Hall.
  rewrite Forall_forall in Hall. specialize (Hall t Ht).
  unfold well_formed in Hall.
  apply andb_true_iff in Hall as [Hall Hnodup].
  apply andb_true_iff in Hall as [Hall Hrule].
  apply andb_true_iff in Hall as [Hlo Hhi].
  apply bool_decide_eq_true in Hnodup, Hrule.
  cbv zeta. repeat split; try done.
  intros Hthree. rewrite Hrule.
  apply orb_true_iff. right. apply Z.leb_le. lia.
Qed.

Lemma analyze_confidence_and_decision_witness :
  let message :=
    "Also share the OTP we just sent to your phone to confirm your identity."
  in
  (3 ≤ length (indicators (analyze message [] ∅)))%nat
  ∧ is_scam (analyze message [] ∅) = true.
Proof.
  intros message.
  assert (Hthree : (3 ≤ length (indicators (analyze message [] ∅)))%nat)
    by (vm_compute; lia).
  split; [exact Hthree|].
  exact (proj2 (proj2 (proj2
           (analyze_confidence_and_decision message [] ∅))) Hthree).
Defined.

End Detector.

(** ** The termination policy *)

Section Termination.

Import ScamEngagementAgent.

Definition payment_categories : list string :=
  ["upiIds"; "bankAccounts"; "phoneNumbers"; "phishingLinks"].

(** The set a session holds under a key ([intelligence.get(key, [])]). *)
Definition category (session : Session) (key : string) : list string :=
  default [] (intelligence session !! key).

Definition at_least_two_categories (session : Session) : Prop :=
  ∃ k1 k2, k1 ∈ payment_categories ∧ k2 ∈ payment_categories ∧ k1 ≠ k2
           ∧ category session k1 ≠ [] ∧ category session k2 ≠ [].

(** [msg] is the last message of [recent] sent by the counterpart. *)
Definition most_recent_counterpart (recent : list Message) (msg : Message)
  : Prop :=
  ∃ before after,
    recent = before ++ msg :: after
    ∧ sender msg = "scammer"
    ∧ Forall (λ m, sender m ≠ "scammer") after.

Definition voices_suspicion (recent : list Message) : Prop :=
  ∃ msg phrase,
    most_recent_counterpart recent msg
    ∧ phrase ∈ suspicious_phrases
    ∧ contains phrase (lower (text msg)) = true.

Lemma populated_nonempty session key :
  populated (intelligence session) key = true ↔ category session key ≠ [].
Proof.
  unfold populated, category.
  destruct (default [] (intelligence session !! key)); cbn; split; done.
Qed.

Lemma find_skip {A} (f : A → bool) (l1 l2 : list A) :
  Forall (λ x, f x = false) l1 → List.find f (l1 ++ l2) = List.find f l2.
Proof. induction 1 as [|x l Hx _ IH]; cbn; [done | by rewrite Hx]. Qed.

Lemma find_reverse_last {A} (f : A → bool) (l : list A) (x : A) :
  List.find f (reverse l) = Some x ↔
  ∃ before after, l = before ++ x :: after ∧ f x = true
                  ∧ Forall (λ y, f y = false) after.
Proof.
  split.
  - induction l as [|y l IH] using rev_ind; [done|].
    rewrite reverse_snoc. cbn. destruct (f y) eqn:Hy.
    + intros [= ->]. exists l, []. by rewrite Forall_nil.
    + intros (before & after & -> & Hx & Hafter)%IH.
      exists before, (after ++ [y]). rewrite <- app_assoc. cbn.
      split_and!; [done..|]. apply Forall_app. by rewrite Forall_singleton.
  - intros (before & after & -> & Hx & Hafter).
    rewrite reverse_app, reverse_cons, <- app_assoc.
    rewrite find_skip; [by cbn; rewrite Hx|].
    by apply Forall_reverse.
Qed.

Lemma sender_test (m : Message) :
  String.eqb (sender m) "scammer" = false ↔ sender m ≠ "scammer".
Proof. by rewrite String.eqb_neq. Qed.

Lemma last_scammer_message_spec recent t :
  last_scammer_message recent = Some t ↔
  ∃ msg, most_recent_counterpart recent msg ∧ t = lower (text msg).
Proof.
  unfold last_scammer_message, most_recent_counterpart.
  rewrite fmap_Some. split.
  - intros (msg & (before & after & -> & Hs & Hafter)%find_reverse_last & ->).
    exists msg. split; [|done]. exists before, after.
    apply String.eqb_eq in Hs. split_and!; [done..|].
    eapply Forall_impl; [exact Hafter|]. intros m. apply sender_test.
  - intros (msg & (before & after & -> & Hs & Hafter) & ->).
    exists msg. split; [|done]. apply find_reverse_last.
    exists before, after. split_and!; [done|by apply String.eqb_eq|].
    eapply Forall_impl; [exact Hafter|]. intros m. apply sender_test.
Qed.

Lemma any_in_spec ws s :
  any_in ws s = true ↔ ∃ w, w ∈ ws ∧ contains w s = true.
Proof.
  unfold any_in. rewrite existsb_exists.
  by setoid_rewrite list_elem_of_In.
Qed.

Lemma suspicion_spec recent :
  match recent with
  | [] => false
  | _ =>
      match last_scammer_message recent with
      | Some last =>
          if negb (String.eqb last "") then
            if any_in suspicious_phrases last then true else false
          else false
      | None => false
      end
  end = true ↔ voices_suspicion recent.
Proof.
  unfold voices_suspicion. split.
  - destruct recent as [|m recent]; [done|].
    destruct (last_scammer_message (m :: recent)) as [last|] eqn:Hlast;
      [|done].
    apply last_scammer_message_spec in Hlast as (msg & Hmsg & ->).
    destruct (negb _); [|done].
    destruct (any_in _ _) eqn:Hany; [|done]. intros _.
    apply any_in_spec in Hany as (phrase & ? & ?). eauto.
  - intros (msg & phrase & Hmsg & Hphrase & Hin).
    assert (Hlast : last_scammer_message recent = Some (lower (text msg)))
      by (apply last_scammer_message_spec; eauto).
    destruct recent as [|m recent].
    { destruct Hmsg as (before & after & Heq & _). by destruct before. }
    rewrite Hlast.
    assert (Hany : any_in suspicious_phrases (lower (text msg)) = true)
      by (apply any_in_spec; eauto).
    rewrite Hany.
    destruct (String.eqb_spec (lower (text msg)) "") as [Hempty|]; [|done].
    rewrite Hempty in Hany. by vm_compute in Hany.
Qed.

Ltac in_list := apply list_elem_of_In; cbn; tauto.

Lemma two_populated session k1 k2 :
  k1 ∈ payment_categories → k2 ∈ payment_categories → k1 ≠ k2 →
  populated (intelligence session) k1 = true →
  populated (intelligence session) k2 = true →
  at_least_two_categories session.
Proof.
  intros ??? H1%populated_nonempty H2%populated_nonempty.
  exists k1, k2. done.
Qed.

Lemma sufficiency_spec session :
  let intel := intelligence session in
  (populated intel "upiIds" || populated intel "bankAccounts"
   || populated intel "phoneNumbers" || populated intel "phishingLinks")
  && (2 <=? Z.of_nat (length (List.filter (populated intel)
                                payment_categories))) = true
  ↔ at_least_two_categories session.
Proof.
  intros intel. split.
  - unfold payment_categories. cbn.
    destruct (populated intel "upiIds") eqn:H1,
             (populated intel "bankAccounts") eqn:H2,
             (populated intel "phoneNumbers") eqn:H3,
             (populated intel "phishingLinks") eqn:H4; cbn; try done;
      intros _;
      first
        [ by apply (two_populated session "upiIds" "bankAccounts");
             [in_list..|done|done|done]
        | by apply (two_populated session "upiIds" "phoneNumbers");
             [in_list..|done|done|done]
        | by apply (two_populated session "upiIds" "phishingLinks");
             [in_list..|done|done|done]
        | by apply (two_populated session "bankAccounts" "phoneNumbers");
             [in_list..|done|done|done]
        | by apply (two_populated session "bankAccounts" "phishingLinks");
             [in_list..|done|done|done]
        | by apply (two_populated session "phoneNumbers" "phishingLinks");
             [in_list..|done|done|done] ].
  - intros (k1 & k2 & Hk1 & Hk2 & Hne
            & H1%populated_nonempty & H2%populated_nonempty).
    fold intel in H1, H2. unfold payment_categories in *.
    repeat (apply elem_of_cons in Hk1 as [->|Hk1]);
      [..|by apply elem_of_nil in Hk1];
      repeat (apply elem_of_cons in Hk2 as [->|Hk2]);
      try (by apply elem_of_nil in Hk2); try done;
      cbn; rewrite ?H1, ?H2; cbn;
      repeat (destruct (populated intel _); cbn; try done).
Qed.

(** C3, amended. [should_end_conversation] answers true exactly when the
    session holds at least 20 messages, or at least two of the four
    payment categories are non-empty and it holds at least 12 messages, or
    the last message of the counterpart among the recent ones contains,
    once lower-cased, one of the six suspicion phrases.  Hence, with all
    four categories populated and no suspicion voiced in the lower-cased
    text, a session of 11 messages goes on and one of 12 messages ends. *)
Theorem should_end_conversation_iff (session : Session)
    (recent_messages : list Message) :
  (should_end_conversation session recent_messages = true ↔
     (20 ≤ length (messages session))%nat
     ∨ (at_least_two_categories session
        ∧ (12 ≤ length (messages session))%nat)
     ∨ voices_suspicion recent_messages)
  ∧ (Forall (λ key, category session key ≠ []) payment_categories →
     ¬ voices_suspicion recent_messages →
     length (messages session) = 11%nat →
     should_end_conversation session recent_messages = false)
  ∧ (Forall (λ key, category session key ≠ []) payment_categories →
     length (messages session) = 12%nat →
     should_end_conversation session recent_messages = true).
Proof.
  assert (Hiff : should_end_conversation session recent_messages = true ↔
     (20 ≤ length (messages session))%nat
     ∨ (at_least_two_categories session
        ∧ (12 ≤ length (messages session))%nat)
     ∨ voices_suspicion recent_messages).
  { unfold should_end_conversation.
    rewrite <- (sufficiency_spec session), <- suspicion_spec. cbv zeta.
    unfold payment_categories.
    destruct (Z.leb_spec 20 (Z.of_nat (length (messages session))));
      [split; [left; lia | done]|].
    destruct (Z.leb_spec 12 (Z.of_nat (length (messages session))));
      rewrite ?andb_true_r, ?andb_false_r;
      repeat match goal with
             | |- context [if ?b then true else _] => destruct b
             end;
      intuition (done || lia). }
  split; [exact Hiff|].
  assert (Hall : Forall (λ key, category session key ≠ []) payment_categories
                 → at_least_two_categories session).
  { intros Hall. rewrite Forall_forall in Hall.
    exists "upiIds", "bankAccounts". unfold payment_categories in *.
    split_and!; [in_list..|done|apply Hall; in_list|apply Hall; in_list]. }
  split.
  - intros _ Hquiet Hlen.
    apply not_true_is_false. intros Hend.
    apply Hiff in Hend as [?|[[_ ?]|?]]; [lia | lia | done].
  - intros Hfour Hlen. apply Hiff. right; left. split; [auto | lia].
Qed.

Lemma should_end_conversation_iff_witness :
  let intel : gmap string (list string) :=
    <["upiIds" := ["fraud@ybl"]]>
    (<["bankAccounts" := ["1234****9012"]]>
    (<["phoneNumbers" := ["+919876543210"]]>
    (<["phishingLinks" := ["http://fake-bank-kyc.com/update"]]>
       empty_intelligence))) in
  let session :=
    mkSession (replicate 11 (mkMessage "scammer" "share the otp" ""))
      true F64.one intel [] "" in
  let recent :=
    [mkMessage "scammer" "share the otp" ""; mkMessage "user" "ok" ""] in
  (Forall (λ key, category session key ≠ []) payment_categories
   ∧ ¬ voices_suspicion recent
   ∧ length (messages session) = 11%nat)
  ∧ should_end_conversation session recent = false.
Proof.
  intros intel session recent.
  assert (Hfour : Forall (λ key, category session key ≠ [])
                    payment_categories)
    by (apply (bool_decide_unpack _); vm_compute; exact I).
  assert (Hquiet : ¬ voices_suspicion recent)
    by (rewrite <- suspicion_spec; vm_compute; discriminate).
  assert (Hlen : length (messages session) = 11%nat) by reflexivity.
  split; [done|].
  exact (proj1 (proj2 (should_end_conversation_iff session recent))
           Hfour Hquiet Hlen).
Defined.

(** C3, with the phrase test read on the text as it was sent, fails: the
    code lower-cases the text first.  A session of 11 messages with all
    four categories populated, whose last counterpart message is
    "STOP ASKING QUESTIONS", holds fewer than 12 messages and its message
    contains none of the six phrases as they are written, yet the
    conversation ends. *)
Lemma uppercase_suspicion_ends_conversation :
  let intel : gmap string (list string) :=
    <["upiIds" := ["fraud@ybl"]]>
    (<["bankAccounts" := ["1234****9012"]]>
    (<["phoneNumbers" := ["+919876543210"]]>
    (<["phishingLinks" := ["http://fake-bank-kyc.com/update"]]>
       empty_intelligence))) in
  let session :=
    mkSession (replicate 11 (mkMessage "scammer" "share the otp" ""))
      true F64.one intel [] "" in
  let last := mkMessage "scammer" "STOP ASKING QUESTIONS" "" in
  let recent := [mkMessage "user" "which bank is this?" ""; last] in
  length (messages session) = 11%nat
  ∧ Forall (λ key, category session key ≠ []) payment_categories
  ∧ most_recent_counterpart recent last
  ∧ Forall (λ phrase, contains phrase (text last) = false) suspicious_phrases
  ∧ should_end_conversation session recent = true.
Proof.
  intros intel session last recent. split_and!.
  - reflexivity.
  - apply (bool_decide_unpack _). vm_compute. exact I.
  - exists [mkMessage "user" "which bank is this?" ""], [].
    split_and!; [reflexivity | reflexivity | constructor].
  - apply (bool_decide_unpack _). vm_compute. exact I.
  - vm_compute. reflexivity.
Qed.

End Termination.

(** ** Strategy selection *)

Section Strategy.

Import ScamEngagementAgent.

Lemma choice_elem rnd (options : list string) :
  options ≠ [] → choice rnd options ∈ options.
Proof.
  intros Hne. unfold choice.
  assert (Hlt : (rnd mod length options < length options)%nat).
  { apply Nat.mod_upper_bound. by destruct options. }
  apply lookup_lt_is_Some in Hlt as [x Hx]. rewrite Hx. cbn.
  by eapply list_elem_of_lookup_2.
Qed.

(** C4, as stated, fails: at a message count of 3 the message
    "Please verify your account" carries the payment keyword [account],
    and the strategy is [play_along] or [request_verification], as the
    random draw has it, not [request_payment_details]. *)
Lemma payment_keyword_loses_to_verify :
  any_in payment_triggers (lower "Please verify your account") = true
  ∧ _determine_strategy 0 "Please verify your account" 3 []
      (Main.new_session "") = "play_along"
  ∧ _determine_strategy 1 "Please verify your account" 3 []
      (Main.new_session "") = "request_verification".
Proof. by vm_compute. Qed.

(** C4, amended. A message whose lower-cased text contains a payment
    keyword gets [request_payment_details] at a message count of at most
    2, at a count above 5, and at a count of 3 to 5 when it contains
    neither [verify] nor [confirm]; at a count of 3 to 5 with [verify] or
    [confirm] it gets [play_along] or [request_verification]. *)
Theorem payment_keyword_strategy (rnd : nat) (incoming_message : string)
    (message_count : Z) (scam_indicators : list string)
    (session_context : Session) :
  any_in payment_triggers (lower incoming_message) = true →
  let strategy :=
    _determine_strategy rnd incoming_message message_count
      scam_indicators session_context in
  (message_count ≤ 2 ∨ 5 < message_count
   ∨ any_in ["verify"; "confirm"] (lower incoming_message) = false →
   strategy = "request_payment_details")
  ∧ (2 < message_count ≤ 5 →
     any_in ["verify"; "confirm"] (lower incoming_message) = true →
     strategy ∈ ["play_along"; "request_verification"]).
Proof.
  intros Hpay strategy. subst strategy. unfold _determine_strategy.
  rewrite Hpay. split.
  - intros Hcase.
    destruct (Z.leb_spec message_count 2); [done|].
    destruct (Z.leb_spec message_count 5); [|done].
    destruct Hcase as [?|[?|Hquiet]]; [lia | lia |]. by rewrite Hquiet.
  - intros [Hlo Hhi] Hverify.
    destruct (Z.leb_spec message_count 2); [lia|].
    destruct (Z.leb_spec message_count 5); [|lia].
    rewrite Hverify. by apply choice_elem.
Qed.

Lemma payment_keyword_strategy_witness :
  let incoming_message := "Transfer the money to this account now" in
  any_in payment_triggers (lower incoming_message) = true
  ∧ (any_in ["verify"; "confirm"] (lower incoming_message) = false
     ∧ _determine_strategy 7 incoming_message 4 [] (Main.new_session "")
       = "request_payment_details").
Proof.
  intros incoming_message.
  assert (Hpay : any_in payment_triggers (lower incoming_message) = true)
    by reflexivity.
  assert (Hquiet :
    any_in ["verify"; "confirm"] (lower incoming_message) = false)
    by reflexivity.
  split; [exact Hpay|]. split; [exact Hquiet|].
  exact (proj1 (payment_keyword_strategy 7 incoming_message 4 []
                  (Main.new_session "") Hpay)
           (or_intror (or_intror Hquiet))).
Defined.

End Strategy.

(** ** Deleting a session *)

Section Deletion.

Import Main.

(** C9. Deleting an id the store does not hold raises the 404
    "Session not found" exception and leaves the store as it was;
    deleting one it holds returns the success body and yields the store
    without that id and with every other session untouched. *)
Theorem delete_session_reports_missing (session_id : string)
    (sessions : gmap string Session) :
  (sessions !! session_id = None →
     delete_session session_id sessions
     = (HTTPException 404 "Session not found", sessions))
  ∧ (is_Some (sessions !! session_id) →
     ∃ sessions',
       delete_session session_id sessions
       = (Returned (mkDeleteBody "success"
                      ("Session " +:+ session_id +:+ " deleted")),
          sessions')
       ∧ sessions' !! session_id = None
       ∧ (∀ other, other ≠ session_id →
            sessions' !! other = sessions !! other)).
Proof.
  unfold delete_session. split.
  - by intros ->.
  - intros [session ->]. exists (delete session_id sessions).
    split_and!; [done | apply lookup_delete_eq |].
    intros other Hother. by apply lookup_delete_ne.
Qed.

Lemma delete_session_reports_missing_witness :
  let sessions : gmap string Session := {["s1" := new_session "t0"]} in
  (sessions !! "s2" = None
   ∧ delete_session "s2" sessions
     = (HTTPException 404 "Session not found", sessions))
  ∧ (is_Some (sessions !! "s1")
     ∧ (delete_session "s1" sessions).2 !! "s1" = None).
Proof.
  intros sessions.
  assert (Hmissing : sessions !! "s2" = None) by reflexivity.
  assert (Hheld : is_Some (sessions !! "s1")) by (eexists; reflexivity).
  split.
  - split; [exact Hmissing|].
    exact (proj1 (delete_session_reports_missing "s2" sessions) Hmissing).
  - split; [exact Hheld|].
    destruct (proj2 (delete_session_reports_missing "s1" sessions) Hheld)
      as (sessions' & -> & Hgone & _).
    exact Hgone.
Defined.

End Deletion.

(** ** What [extract] returns *)

Section Extraction.

(** The four payment and contact entries of a fresh dictionary. *)
Definition contact_fields : gmap string (list string) :=
  <["phoneNumbers" := []]>
  (<["phishingLinks" := []]>
  (<["upiIds" := []]>
  (<["bankAccounts" := []]> ∅))).

(** The synthetic tags of the contextual pass. *)
Definition contextual_tags (text : string) : list string :=
  default [] (_extract_contextual_intelligence text !! "suspiciousKeywords").

Definition tagged (d : gmap string (list string)) : Prop :=
  ∃ tags, d = <["suspiciousKeywords" := tags]> contact_fields.

Lemma tagged_extend items d :
  tagged d → tagged (extend "suspiciousKeywords" items d).
Proof.
  intros [tags ->]. exists (tags ++ items). unfold extend.
  apply map_eq. intros key.
  destruct (decide (key = "suspiciousKeywords")) as [->|Hkey].
  - by rewrite lookup_alter_eq, !lookup_insert_eq.
  - by rewrite lookup_alter_ne, !lookup_insert_ne.
Qed.

Lemma tagged_if (b : bool) items d :
  tagged d → tagged (if b then extend "suspiciousKeywords" items d else d).
Proof. destruct b; auto using tagged_extend. Qed.

Lemma tagged_match (mentioned : list string) items d :
  tagged d →
  tagged match mentioned with
         | [] => d
         | _ => extend "suspiciousKeywords" items d
         end.
Proof. destruct mentioned; auto using tagged_extend. Qed.

Lemma contextual_tagged text : tagged (_extract_contextual_intelligence text).
Proof.
  unfold _extract_contextual_intelligence. cbv zeta.
  do 2 apply tagged_match. do 6 apply tagged_if.
  by exists [].
Qed.

Lemma contextual_shape text :
  _extract_contextual_intelligence text
  = <["suspiciousKeywords" := contextual_tags text]> contact_fields.
Proof.
  unfold contextual_tags.
  destruct (contextual_tagged text) as [tags ->].
  by rewrite lookup_insert_eq.
Qed.

Lemma list_set_nil `{SetOrder} : list_set [] = [].
Proof.
  destruct (list_set []) as [|x l] eqn:Hl; [done|].
  assert (Hx : x ∈ list_set []) by (rewrite Hl; left).
  rewrite list_set_elem in Hx. by apply elem_of_nil in Hx.
Qed.

(** The dictionary [update] overwrites every entry the scans have filled. *)
Lemma update_overwrites tags (d : gmap string (list string)) :
  dom d = dom empty_intelligence →
  update d (<["suspiciousKeywords" := tags]> contact_fields)
  = <["suspiciousKeywords" := tags]> contact_fields.
Proof.
  intros Hdom. unfold update. apply map_eq. intros key.
  rewrite lookup_union.
  destruct (<["suspiciousKeywords" := tags]> contact_fields !! key)
    as [l|] eqn:Hkey; [by destruct (d !! key)|].
  assert (Hout : key ∉ dom d).
  { rewrite Hdom. intros Hin. apply elem_of_dom in Hin as [l Hl].
    unfold empty_intelligence, contact_fields in *.
    repeat (rewrite lookup_insert in Hkey, Hl; case_decide; [done|]).
    by rewrite lookup_empty in Hl. }
  apply not_elem_of_dom in Hout. by rewrite Hout.
Qed.

Lemma extract_returns_tags_only `{Regex} `{SetOrder}
    (conversation : list Message) (latest_message : string) :
  extract conversation latest_message
  = <["suspiciousKeywords" :=
        list_set (contextual_tags
                    (all_text_of conversation latest_message))]>
      contact_fields.
Proof.
  unfold extract. cbv zeta. rewrite contextual_shape.
  rewrite update_overwrites.
  - rewrite fmap_insert. unfold contact_fields.
    rewrite !fmap_insert, fmap_empty. by rewrite list_set_nil.
  - unfold extend. rewrite dom_insert_L, dom_alter_L, !dom_insert_L.
    unfold empty_intelligence. rewrite !dom_insert_L. set_solver.
Qed.

(** The transcript of [test_extraction.py]. *)
Definition transcript : list Message :=
  [mkMessage "scammer"
     "URGENT! Your bank account will be blocked in 2 hours."
     "2026-01-30T21:00:00Z";
   mkMessage "scammer"
     "We are from State Bank security team. You need to verify your account immediately."
     "2026-01-30T21:00:10Z";
   mkMessage "scammer"
     "Please provide your account number and registered mobile number for verification."
     "2026-01-30T21:00:20Z";
   mkMessage "scammer"
     "Also share the OTP we just sent to your phone to confirm your identity."
     "2026-01-30T21:00:30Z";
   mkMessage "scammer"
     "After verification, we need you to transfer Rs.1 to our security account: 1234567890@paytm"
     "2026-01-30T21:00:40Z"].

Definition transcript_latest : string :=
  "After verification, we need you to transfer Rs.1 to our security account: 1234567890@paytm".

(** The entry of a result under a key. *)
Definition field (result : gmap string (list string)) (key : string)
  : list string :=
  default [] (result !! key).

(** C1, on the code. Whatever the pattern scans find, [extract] returns
    the four payment and contact sets empty and, as suspicious keywords,
    the synthetic tags alone: [dict.update] rebinds all five keys to the
    contextual pass's lists.  On the transcript the handle
    [1234567890@paytm] occurs in the text and passes the UPI validator,
    and [urgent] is a literal keyword hit, yet neither is returned. *)
Theorem extract_discards_pattern_scans `{Regex} `{SetOrder} :
  (∀ conversation latest_message,
     let result := extract conversation latest_message in
     result !! "upiIds" = Some []
     ∧ result !! "bankAccounts" = Some []
     ∧ result !! "phoneNumbers" = Some []
     ∧ result !! "phishingLinks" = Some []
     ∧ (∀ tag, tag ∈ field result "suspiciousKeywords"
               ↔ tag ∈ contextual_tags
                         (all_text_of conversation latest_message)))
  ∧ contains "1234567890@paytm" (all_text_of transcript transcript_latest)
    = true
  ∧ _clean_and_validate_upi ["1234567890@paytm"] = ["1234567890@paytm"]
  ∧ ("1234567890@paytm"
       ∉ field (extract transcript transcript_latest) "upiIds")
  ∧ "urgent" ∈ suspicious_keywords
  ∧ contains "urgent" (lower (all_text_of transcript transcript_latest))
    = true
  ∧ ("urgent"
       ∉ field (extract transcript transcript_latest) "suspiciousKeywords").
Proof.
  split_and!.
  - intros conversation latest_message result. subst result.
    rewrite extract_returns_tags_only. split_and!; try done.
    intros tag. unfold field. rewrite lookup_insert_eq. cbn.
    apply list_set_elem.
  - by vm_compute.
  - by vm_compute.
  - rewrite extract_returns_tags_only. unfold field. cbn.
    apply not_elem_of_nil.
  - apply (bool_decide_unpack _). by vm_compute.
  - by vm_compute.
  - rewrite extract_returns_tags_only. unfold field.
    rewrite lookup_insert_eq. cbn. rewrite list_set_elem.
    apply (bool_decide_unpack _). by vm_compute.
Qed.

Definition intelligence_keys : list string :=
  ["bankAccounts"; "upiIds"; "phishingLinks"; "phoneNumbers";
   "suspiciousKeywords"].

Lemma extract_field `{Regex} `{SetOrder} conversation latest_message key :
  key ∈ intelligence_keys →
  ∃ l, extract conversation latest_message !! key = Some l
       ∧ NoDup l
       ∧ (∀ x, x ∈ l ↔
            x ∈ field (<["suspiciousKeywords" :=
                           contextual_tags
                             (all_text_of conversation latest_message)]>
                         contact_fields) key).
Proof.
  intros Hkey. rewrite extract_returns_tags_only.
  unfold intelligence_keys, field in *.
  repeat (apply elem_of_cons in Hkey as [->|Hkey]);
    [..|by apply elem_of_nil in Hkey].
  1-4: exists []; split_and!; [done | constructor | done].
  eexists. rewrite !lookup_insert_eq.
  split_and!; [done | apply list_set_NoDup |]. intros x. apply list_set_elem.
Qed.

End Extraction.

(** ** The orchestrator *)

Section Orchestrator.

Import Main.
Context `{Regex} `{SetOrder}.

(** The session a call works on: the stored one, or a fresh one. *)
Definition session_before (env : Env) (request : IncomingMessageRequest)
    (sessions : gmap string Session) : Session :=
  default (new_session (now_created env)) (sessions !! sessionId request).

Definition store_after (env : Env) (request : IncomingMessageRequest)
    (sessions : gmap string Session) : gmap string Session :=
  (handle_message env request sessions).2.

(** The set a store holds for a session under a key; nothing for an id
    it does not hold. *)
Definition session_set (sessions : gmap string Session)
    (session_id key : string) : list string :=
  match sessions !! session_id with
  | Some session => field (intelligence session) key
  | None => []
  end.

(** Successive calls, each with what it takes from outside. *)
Fixpoint run (calls : list (Env * IncomingMessageRequest))
    (sessions : gmap string Session) : gmap string Session :=
  match calls with
  | [] => sessions
  | (env, request) :: rest => run rest (store_after env request sessions)
  end.

Lemma handle_message_session env request sessions :
  ∃ session,
    store_after env request sessions !! sessionId request = Some session
    ∧ intelligence session
      = merge_intelligence
          (intelligence (session_before env request sessions))
          (extract (conversationHistory request ++ [message request])
             (text (message request)))
    ∧ scam_detected session
      = ScamDetector.is_scam
          (ScamDetector.analyze (text (message request))
             (text <$> conversationHistory request)
             (default ∅ (metadata request)))
    ∧ confidence_score session
      = ScamDetector.confidence
          (ScamDetector.analyze (text (message request))
             (text <$> conversationHistory request)
             (default ∅ (metadata request))).
Proof.
  unfold store_after, handle_message, session_before. cbv zeta.
  destruct (agent_reply env) as [reply|error]; [case_match|]; cbn;
    rewrite lookup_insert_eq; eexists; split_and!; try reflexivity;
    by destruct (sessions !! sessionId request).
Qed.

Lemma handle_message_other env request sessions other :
  other ≠ sessionId request →
  store_after env request sessions !! other = sessions !! other.
Proof.
  intros Hother. unfold store_after, handle_message. cbv zeta.
  destruct (agent_reply env) as [reply|error]; [case_match|]; cbn;
    by rewrite lookup_insert_ne.
Qed.

Lemma merge_field session_intel extracted_intel key :
  key ∈ intelligence_keys →
  (∀ k, k ∈ intelligence_keys → is_Some (extracted_intel !! k)) →
  NoDup (field (merge_intelligence session_intel extracted_intel) key)
  ∧ ∀ x, x ∈ field session_intel key →
         x ∈ field (merge_intelligence session_intel extracted_intel) key.
Proof.
  intros Hkey Hall. destruct (Hall key Hkey) as [found Hfound].
  unfold field, merge_intelligence. rewrite map_lookup_imap.
  destruct (session_intel !! key) as [old|]; cbn.
  - rewrite Hfound. cbn. split; [apply list_set_NoDup|].
    intros x Hx. apply list_set_elem, elem_of_app. by left.
  - split; [constructor|done].
Qed.

Lemma extract_has_keys conversation latest_message k :
  k ∈ intelligence_keys →
  is_Some (extract conversation latest_message !! k).
Proof.
  intros Hk. destruct (extract_field conversation latest_message k Hk)
    as (l & -> & _). by eexists.
Qed.

Lemma call_grows env request sessions session_id key :
  key ∈ intelligence_keys →
  ∀ x, x ∈ session_set sessions session_id key →
       x ∈ session_set (store_after env request sessions) session_id key.
Proof.
  intros Hkey x. unfold session_set.
  destruct (decide (session_id = sessionId request)) as [->|Hother].
  - destruct (handle_message_session env request sessions)
      as (session & -> & -> & _).
    unfold session_before.
    destruct (sessions !! sessionId request) as [stored|]; cbn;
      [|by intros ?%elem_of_nil].
    by apply merge_field; [|apply extract_has_keys].
  - by rewrite handle_message_other.
Qed.

(** C5. Along any sequence of [handle_message] calls, each of the five
    intelligence sets of a session keeps every element it held before,
    and after a call each of the five sets of the session addressed is
    free of duplicates. *)
Theorem session_intelligence_only_grows
    (calls : list (Env * IncomingMessageRequest))
    (sessions : gmap string Session) (session_id : string) :
  Forall (λ key,
    (∀ x, x ∈ session_set sessions session_id key →
          x ∈ session_set (run calls sessions) session_id key)
    ∧ (∀ env request,
         NoDup (session_set (store_after env request sessions)
                  (sessionId request) key))) intelligence_keys.
Proof.
  apply Forall_forall. intros key Hkey. split.
  - revert sessions. induction calls as [|[env request] rest IH];
      intros sessions x Hx; cbn; [done|].
    by apply IH, call_grows.
  - intros env request. unfold session_set.
    destruct (handle_message_session env request sessions)
      as (session & -> & -> & _).
    by apply merge_field; [|apply extract_has_keys].
Qed.

(** C10. After a call the session's [scam_detected] and
    [confidence_score] are those of the classification of that call's
    message; a session flagged by one message is unflagged by the next
    one that classifies as no scam. *)
Theorem session_flags_follow_latest_message :
  (∀ env request sessions,
     ∃ session,
       store_after env request sessions !! sessionId request = Some session
       ∧ scam_detected session
         = ScamDetector.is_scam
             (ScamDetector.analyze (text (message request))
                (text <$> conversationHistory request)
                (default ∅ (metadata request)))
       ∧ confidence_score session
         = ScamDetector.confidence
             (ScamDetector.analyze (text (message request))
                (text <$> conversationHistory request)
                (default ∅ (metadata request))))
  ∧ (let first :=
       mkMessage "scammer"
         "Also share the OTP we just sent to your phone to confirm your identity."
         "2026-01-30T21:00:30Z" in
     let second :=
       mkMessage "scammer" "Thanks!" "2026-01-30T21:00:40Z" in
     ∀ env1 env2,
       let after_first :=
         store_after env1 (mkRequest "session-1" first [] None) ∅ in
       let after_second :=
         store_after env2 (mkRequest "session-1" second [first] None)
           after_first in
       scam_detected <$> after_first !! "session-1" = Some true
       ∧ scam_detected <$> after_second !! "session-1" = Some false).
Proof.
  split.
  - intros env request sessions.
    destruct (handle_message_session env request sessions)
      as (session & ? & _ & ? & ?). eauto.
  - intros first second env1 env2 after_first after_second.
    subst after_first after_second. split.
    + destruct (handle_message_session env1
                  (mkRequest "session-1" first [] None) ∅)
        as (session & Hs & _ & Hflag & _).
      cbn in Hs. rewrite Hs. cbn. by rewrite Hflag.
    + destruct (handle_message_session env2
                  (mkRequest "session-1" second [first] None)
                  (store_after env1 (mkRequest "session-1" first [] None) ∅))
        as (session & Hs & _ & Hflag & _).
      cbn in Hs. rewrite Hs. cbn. by rewrite Hflag.
Qed.

End Orchestrator.

(** * Further properties *)

(** ** Digit strings *)

Section Digits.

Implicit Types (s : string).

(** The string holds decimal digits only. *)
Fixpoint digits_only (s : string) : bool :=
  match s with
  | EmptyString => true
  | String c s' => isdigit c && digits_only s'
  end.

Lemma string_app_nil_r s : s +:+ "" = s.
Proof. induction s as [|c s IH]; [done|]. by rewrite append_String, IH. Qed.

Lemma string_app_assoc s1 s2 s3 : (s1 +:+ s2) +:+ s3 = s1 +:+ (s2 +:+ s3).
Proof.
  induction s1 as [|c s1 IH]; [done|]. by rewrite !append_String, IH.
Qed.

Lemma len_append s1 s2 : len (s1 +:+ s2) = len s1 + len s2.
Proof. unfold len. rewrite length_append. lia. Qed.

Lemma strip_non_digits_append s1 s2 :
  strip_non_digits (s1 +:+ s2) = strip_non_digits s1 +:+ strip_non_digits s2.
Proof.
  induction s1 as [|c s1 IH]; [done|]. rewrite append_String. cbn.
  destruct (isdigit c); [by rewrite append_String, IH | done].
Qed.

Lemma digits_only_strip s : digits_only (strip_non_digits s) = true.
Proof.
  induction s as [|c s IH]; [done|]. cbn.
  destruct (isdigit c) eqn:Hc; [cbn; by rewrite Hc | done].
Qed.

Lemma strip_non_digits_id s : digits_only s = true → strip_non_digits s = s.
Proof.
  induction s as [|c s IH]; [done|]. cbn.
  intros [Hc Hs]%andb_true_iff. rewrite Hc. by rewrite IH.
Qed.

Lemma digits_only_append s1 s2 :
  digits_only (s1 +:+ s2) = digits_only s1 && digits_only s2.
Proof.
  induction s1 as [|c s1 IH]; [done|]. rewrite append_String. cbn.
  by rewrite IH, andb_assoc.
Qed.

Lemma digits_only_slice_from n s :
  digits_only s = true → digits_only (slice_from n s) = true.
Proof.
  revert s; induction n as [|n IH]; intros [|c s]; cbn; try done.
  intros [_ Hs]%andb_true_iff. by apply IH.
Qed.

Lemma digits_only_slice_to n s :
  digits_only s = true → digits_only (slice_to n s) = true.
Proof.
  revert s; induction n as [|n IH]; intros [|c s]; cbn; try done.
  intros [Hc Hs]%andb_true_iff. by rewrite Hc, IH.
Qed.

Lemma strip_non_digits_stars k : strip_non_digits (repeat_char "*" k) = "".
Proof.
  unfold repeat_char. by induction (Z.to_nat k) as [|n IH].
Qed.

End Digits.

(** ** The phone validator as a normal form *)

Section Phones.

Lemma phones_app (l1 l2 : list string) :
  _clean_and_validate_phones (l1 ++ l2)
  = _clean_and_validate_phones l1 ++ _clean_and_validate_phones l2.
Proof.
  induction l1 as [|phone l1 IH]; [done|].
  rewrite <- app_comm_cons, phones_cons, (phones_cons phone l1), IH.
  by rewrite app_assoc.
Qed.

(** What the validator emits for a candidate, from its digits. *)
Definition format_digits (digits : string) : list string :=
  if (10 <=? len digits) && (len digits <=? 15) then
    [if startswith digits "91" && (len digits =? 12) then
       "+91" +:+ slice_from 2 digits
     else if startswith digits "0" && (len digits =? 11) then
       "+91" +:+ slice_from 1 digits
     else if len digits =? 10 then "+91" +:+ digits
     else "+" +:+ digits]
  else [].

Lemma phones_single (phone : string) :
  _clean_and_validate_phones [phone] = format_digits (strip_non_digits phone).
Proof. reflexivity. Qed.

Lemma phones_plus (d : string) :
  digits_only d = true →
  _clean_and_validate_phones ["+" +:+ d] = format_digits d.
Proof.
  intros Hd. rewrite phones_single.
  change (strip_non_digits ("+" +:+ d)) with (strip_non_digits d).
  by rewrite strip_non_digits_id.
Qed.

Lemma format_91 (x : string) :
  len x = 10 → format_digits ("91" +:+ x) = ["+91" +:+ x].
Proof.
  intros Hx. unfold format_digits. rewrite len_append, Hx.
  change (len "91") with 2.
  change ("91" +:+ x) with (String "9" (String "1" x)).
  cbn. by destruct x.
Qed.

(** A canonical number: [+], then 10 to 15 digits that the validator
    formats back to the same string. *)
Definition canonical_phone (p : string) : Prop :=
  ∃ d, p = "+" +:+ d ∧ digits_only d = true ∧ 10 ≤ len d ≤ 15
       ∧ format_digits d = [p].

Lemma canonical_indian (x : string) :
  digits_only x = true → len x = 10 → canonical_phone ("+91" +:+ x).
Proof.
  intros Hx Hn. exists ("91" +:+ x). split_and!.
  - done.
  - by rewrite digits_only_append, Hx.
  - rewrite len_append, Hn. by cbn.
  - rewrite len_append, Hn. by cbn.
  - by apply format_91.
Qed.

Lemma format_digits_canonical (d p : string) :
  digits_only d = true → p ∈ format_digits d → canonical_phone p.
Proof.
  intros Hd. unfold format_digits.
  destruct (Z.leb_spec 10 (len d)); [|by intros ?%elem_of_nil].
  destruct (Z.leb_spec (len d) 15); [|by intros ?%elem_of_nil]. cbn [andb].
  intros ->%list_elem_of_singleton.
  destruct (startswith d "91" && (len d =? 12)) eqn:H91.
  { apply andb_true_iff in H91 as [Hp Hn%Z.eqb_eq].
    apply canonical_indian; [by apply digits_only_slice_from|].
    unfold len in *. rewrite length_slice_from. lia. }
  destruct (startswith d "0" && (len d =? 11)) eqn:H011.
  { apply andb_true_iff in H011 as [Hp Hn%Z.eqb_eq].
    apply canonical_indian; [by apply digits_only_slice_from|].
    unfold len in *. rewrite length_slice_from. lia. }
  destruct (Z.eqb_spec (len d) 10) as [H10|H10].
  { by apply canonical_indian. }
  exists d. split_and!; [done | done | lia | lia |].
  unfold format_digits. rewrite H91, H011.
  destruct (Z.leb_spec 10 (len d)); [|lia].
  destruct (Z.leb_spec (len d) 15); [|lia]. cbn [andb].
  by destruct (Z.eqb_spec (len d) 10).
Qed.

Lemma phones_canonical (phone_matches : list string) :
  Forall canonical_phone (_clean_and_validate_phones phone_matches).
Proof.
  induction phone_matches as [|phone rest IH]; [constructor|].
  rewrite phones_cons. apply Forall_app. split; [|done].
  rewrite phones_single. apply Forall_forall. intros p Hp.
  eapply format_digits_canonical; [|done]. apply digits_only_strip.
Qed.

Lemma phones_fixed (emitted : list string) :
  Forall canonical_phone emitted →
  _clean_and_validate_phones emitted = emitted.
Proof.
  induction 1 as [|p rest (d & -> & Hd & _ & Hfix) _ IH]; [done|].
  by rewrite phones_cons, (phones_plus d Hd), Hfix, IH.
Qed.

(** X1. Every number the phone validator emits is [+] followed by 10 to
    15 digits, and the validator leaves such a list as it is: validating
    its own output changes nothing. *)
Theorem phone_validator_idempotent (phone_matches : list string) :
  let emitted := _clean_and_validate_phones phone_matches in
  Forall (λ p, ∃ d, p = "+" +:+ d ∧ digits_only d = true
                    ∧ 10 ≤ len d ≤ 15) emitted
  ∧ _clean_and_validate_phones emitted = emitted.
Proof.
  intros emitted. pose proof (phones_canonical phone_matches) as Hall.
  split; [|by apply phones_fixed].
  eapply Forall_impl; [exact Hall|].
  intros p (d & ? & ? & ? & _). eauto.
Qed.

End Phones.

(** ** Masked accounts *)

Section Accounts.

(** What the validator emits for a candidate, from its digits. *)
Definition mask_digits (clean : string) : list string :=
  if (9 <=? len clean) && (len clean <=? 18) then
    [if 8 <? len clean then
       slice_to 4 clean +:+ repeat_char "*" (len clean - 8)
         +:+ slice_last 4 clean
     else slice_to 4 clean +:+ repeat_char "*" (len clean - 4)]
  else [].

Lemma accounts_single (account : string) :
  _clean_and_validate_accounts [account]
  = mask_digits (strip_non_digits account).
Proof. reflexivity. Qed.

Lemma mask_digits_shape (clean m : string) :
  digits_only clean = true → m ∈ mask_digits clean →
  len m = len clean
  ∧ strip_non_digits m = slice_to 4 clean +:+ slice_last 4 clean
  ∧ len (strip_non_digits m) = 8.
Proof.
  intros Hd. unfold mask_digits.
  destruct (Z.leb_spec 9 (len clean)); [|by intros ?%elem_of_nil].
  destruct (Z.leb_spec (len clean) 18); [|by intros ?%elem_of_nil].
  destruct (Z.ltb_spec 8 (len clean)); [|lia]. cbn [andb].
  intros ->%list_elem_of_singleton.
  assert (H4 : len (slice_to 4 clean) = 4).
  { unfold len in *. rewrite length_slice_to; lia. }
  assert (Hl : len (slice_last 4 clean) = 4).
  { unfold len, slice_last in *. rewrite length_slice_from. lia. }
  assert (Hs : strip_non_digits
                 (slice_to 4 clean +:+ repeat_char "*" (len clean - 8)
                  +:+ slice_last 4 clean)
               = slice_to 4 clean +:+ slice_last 4 clean).
  { rewrite !strip_non_digits_append, strip_non_digits_stars.
    rewrite !strip_non_digits_id; [done|..].
    - by apply digits_only_slice_from.
    - by apply digits_only_slice_to. }
  split_and!.
  - rewrite !len_append, H4, Hl. unfold len at 1.
    rewrite length_repeat_char. lia.
  - done.
  - rewrite Hs, len_append. lia.
Qed.

Lemma accounts_hidden (emitted : list string) :
  Forall (λ m, len (strip_non_digits m) = 8) emitted →
  _clean_and_validate_accounts emitted = [].
Proof.
  induction 1 as [|m rest Hm _ IH]; [done|].
  rewrite accounts_cons, IH, accounts_single. unfold mask_digits.
  rewrite Hm. done.
Qed.

(** X2. Every mask the account validator emits is as long as the digit
    string of one of the candidates and shows exactly eight of its digits,
    the first four and the last four; fed back to the validator, the masks
    are all dropped. *)
Theorem account_masks_show_eight_digits (account_matches : list string) :
  let emitted := _clean_and_validate_accounts account_matches in
  Forall (λ m, ∃ account,
            account ∈ account_matches
            ∧ len m = len (strip_non_digits account)
            ∧ strip_non_digits m
              = slice_to 4 (strip_non_digits account)
                +:+ slice_last 4 (strip_non_digits account)
            ∧ len (strip_non_digits m) = 8) emitted
  ∧ _clean_and_validate_accounts emitted = [].
Proof.
  intros emitted.
  assert (Hall : Forall (λ m, ∃ account,
            account ∈ account_matches
            ∧ len m = len (strip_non_digits account)
            ∧ strip_non_digits m
              = slice_to 4 (strip_non_digits account)
                +:+ slice_last 4 (strip_non_digits account)
            ∧ len (strip_non_digits m) = 8) emitted).
  { subst emitted.
    induction account_matches as [|account rest IH]; [constructor|].
    rewrite accounts_cons. apply Forall_app. split.
    - rewrite accounts_single. apply Forall_forall. intros m Hm.
      exists account. split; [left|].
      by apply mask_digits_shape; [apply digits_only_strip|].
    - eapply Forall_impl; [exact IH|].
      intros m (a & ? & ?). exists a. split; [by right | done]. }
  split; [done|]. apply accounts_hidden.
  eapply Forall_impl; [exact Hall|]. by intros m (_ & _ & _ & _ & ?).
Qed.

End Accounts.

(** ** Links *)

Section Links.

Implicit Types (s t : string).

Fixpoint last_char (s : string) : option ascii :=
  match s with
  | EmptyString => None
  | String c EmptyString => Some c
  | String _ s' => last_char s'
  end.

(** The string ends in one of [. , ; ! ?]. *)
Definition ends_with_punct (s : string) : bool :=
  match last_char s with
  | Some c => is_trailing_punct c
  | None => false
  end.

Lemma last_char_append s t : t ≠ "" → last_char (s +:+ t) = last_char t.
Proof.
  intros Ht. induction s as [|c s IH]; [done|].
  rewrite append_String. cbn. rewrite IH.
  destruct (s +:+ t) eqn:Hst; [|done].
  by destruct s, t.
Qed.

Lemma rev_app_append s t : String.rev_app s t = String.rev s +:+ t.
Proof.
  revert t. induction s as [|c s IH]; intros t; [done|].
  unfold String.rev. cbn. rewrite (IH (String c t)), (IH (String c "")).
  by rewrite string_app_assoc.
Qed.

Lemma last_char_rev s :
  last_char (String.rev s)
  = match s with String c _ => Some c | EmptyString => None end.
Proof.
  destruct s as [|c s]; [done|].
  unfold String.rev. cbn. rewrite rev_app_append.
  by rewrite last_char_append.
Qed.

Lemma drop_leading_punct_head t :
  match drop_leading_punct t with
  | String c _ => is_trailing_punct c = false
  | EmptyString => True
  end.
Proof.
  induction t as [|c t IH]; [done|]. cbn [drop_leading_punct].
  by destruct (is_trailing_punct c) eqn:Hc.
Qed.

Lemma strip_trailing_punct_end s :
  ends_with_punct (strip_trailing_punct s) = false.
Proof.
  unfold ends_with_punct, strip_trailing_punct. rewrite last_char_rev.
  pose proof (drop_leading_punct_head (String.rev s)) as Hhead.
  by destruct (drop_leading_punct (String.rev s)).
Qed.

(** What the validator emits for one candidate. *)
Definition clean_url (url : string) : list string :=
  let url := strip url in
  let url := strip_trailing_punct url in
  let url :=
    if negb (startswith url "http://" || startswith url "https://") then
      if startswith url "www." then "http://" +:+ url
      else "http://" +:+ url
    else url in
  if contains "." url && (5 <? len url) then [url] else [].

Lemma urls_cons (url : string) (rest : list string) :
  _clean_and_validate_urls (url :: rest)
  = clean_url url ++ _clean_and_validate_urls rest.
Proof. unfold clean_url. cbn -[len]. by case_match. Qed.

Lemma clean_url_shape (url u : string) :
  u ∈ clean_url url →
  (startswith u "http://" = true ∨ startswith u "https://" = true)
  ∧ contains "." u = true
  ∧ 5 < len u
  ∧ ends_with_punct u = false.
Proof.
  unfold clean_url. cbv zeta.
  set (bare := strip_trailing_punct (strip url)).
  assert (Hend : ends_with_punct bare = false)
    by apply strip_trailing_punct_end.
  destruct (startswith bare "http://") eqn:Hhttp; cbn [orb negb].
  { destruct (contains "." bare && (5 <? len bare)) eqn:Hok;
      [|by intros ?%elem_of_nil].
    intros ->%list_elem_of_singleton.
    apply andb_true_iff in Hok as [? ?%Z.ltb_lt]. auto. }
  destruct (startswith bare "https://") eqn:Hhttps; cbn [orb negb].
  { destruct (contains "." bare && (5 <? len bare)) eqn:Hok;
      [|by intros ?%elem_of_nil].
    intros ->%list_elem_of_singleton.
    apply andb_true_iff in Hok as [? ?%Z.ltb_lt]. auto. }
  assert (Hsame : (if startswith bare "www." then "http://" +:+ bare
                   else "http://" +:+ bare) = "http://" +:+ bare)
    by (by destruct (startswith bare "www.")).
  rewrite Hsame.
  destruct (contains "." ("http://" +:+ bare) && (5 <? len ("http://" +:+ bare)))
    eqn:Hok; [|by intros ?%elem_of_nil].
  intros ->%list_elem_of_singleton.
  apply andb_true_iff in Hok as [Hdot ?%Z.ltb_lt].
  split_and!; [left | done | done |].
  - change ("http://" +:+ bare)
      with (String "h" (String "t" (String "t" (String "p"
              (String ":" (String "/" (String "/" bare))))))).
    cbn. by destruct bare.
  - destruct bare as [|c bare']; [by vm_compute in Hdot|].
    unfold ends_with_punct in *. by rewrite last_char_append.
Qed.

(** X3. Every link the URL validator emits starts with [http://] or
    [https://], contains a dot, is longer than five characters and does
    not end in [.], [,], [;], [!] or [?]. *)
Theorem url_validator_output (url_matches : list string) :
  Forall (λ u,
    (startswith u "http://" = true ∨ startswith u "https://" = true)
    ∧ contains "." u = true
    ∧ 5 < len u
    ∧ ends_with_punct u = false) (_clean_and_validate_urls url_matches).
Proof.
  induction url_matches as [|url rest IH]; [constructor|].
  rewrite urls_cons. apply Forall_app. split; [|done].
  apply Forall_forall. intros u. apply clean_url_shape.
Qed.

End Links.

(** ** The text [extract] reads *)

Section Transcript.

Context `{Regex} `{SetOrder}.

Lemma extract_reads_text (conversation1 conversation2 : list Message)
    (latest_message : string) :
  all_text_of conversation1 latest_message
  = all_text_of conversation2 latest_message →
  extract conversation1 latest_message = extract conversation2 latest_message.
Proof. intros Htext. unfold extract. cbv zeta. by rewrite Htext. Qed.

(** X4. [extract] reads the messages of the scammer only: dropping every
    other message of the conversation, the agent's own replies among them,
    leaves its result unchanged, and so does rewriting the timestamps. *)
Theorem extract_ignores_own_replies (conversation : list Message)
    (latest_message : string) :
  extract (filter (λ msg, sender msg = "scammer") conversation) latest_message
  = extract conversation latest_message
  ∧ extract ((λ msg, mkMessage (sender msg) (text msg) "") <$> conversation)
      latest_message
    = extract conversation latest_message.
Proof.
  split; apply extract_reads_text; unfold all_text_of; do 2 f_equal.
  - f_equal. induction conversation as [|msg rest IH]; [done|].
    rewrite !filter_cons. destruct (decide (sender msg = "scammer")) as [Hs|Hs].
    + rewrite filter_cons, decide_True by done. by rewrite IH.
    + done.
  - induction conversation as [|msg rest IH]; [done|].
    rewrite fmap_cons, !filter_cons. cbn [sender text].
    destruct (decide (sender msg = "scammer")); cbn; by rewrite IH.
Qed.

End Transcript.

(** ** Indicators, confidence and notes *)

Section Indicators.

Import ScamDetector.

(** The indicator tags, in the order [analyze] registers them. *)
Definition indicator_tags : list string :=
  ["urgency_tactics"; "threatening_language"; "suspicious_requests";
   "financial_focus"; "impersonation_attempt"; "contains_links";
   "requests_sensitive_data"; "unsolicited_contact"; "poor_grammar"].

(** The sentence [_generate_notes] has for a tag. *)
Definition indicator_clause (tag : string) : string :=
  if String.eqb tag "urgency_tactics" then
    "Uses urgency to pressure victim"
  else if String.eqb tag "threatening_language" then
    "Employs threats or intimidation"
  else if String.eqb tag "suspicious_requests" then
    "Requests sensitive actions"
  else if String.eqb tag "financial_focus" then
    "Focuses on financial information"
  else if String.eqb tag "impersonation_attempt" then
    "Attempts to impersonate authority"
  else if String.eqb tag "contains_links" then
    "Contains potentially malicious links"
  else if String.eqb tag "requests_sensitive_data" then
    "Directly requests sensitive data (OTP/PIN/CVV)"
  else if String.eqb tag "unsolicited_contact" then
    "Unsolicited contact from unknown source"
  else if String.eqb tag "poor_grammar" then
    "Exhibits poor grammar/formatting"
  else "".

Definition thresholds_hold (r : Classification) : bool :=
  bool_decide (indicators r = [] ↔ confidence r = F64.zero)
  && (negb (is_scam r) || (2 <=? Z.of_nat (length (indicators r)))).

Definition notes_follow (r : Classification) : bool :=
  bool_decide (indicators r
               = filter (λ tag, tag ∈ indicators r) indicator_tags)
  && bool_decide (notes r =
       match indicators r with
       | [] => "No significant scam indicators detected"
       | tags => join "; " (indicator_clause <$> tags)
       end)
  && negb (String.eqb (notes r) "").

Lemma verdicts_checked (check : Classification → bool) :
  forallb (λ t, check (verdict t)) (tallies categories (mkTally [] F64.zero))
  = true →
  ∀ message conversation_history metadata,
    check (analyze message conversation_history metadata) = true.
Proof.
  intros Hall message conversation_history metadata.
  destruct (analyze_verdict message conversation_history metadata)
    as (t & Ht & ->).
  rewrite forallb_forall in Hall. apply Hall. by apply list_elem_of_In.
Qed.

(** X5. No indicator means a confidence of zero and conversely, and a
    message is classified as a scam only with at least two indicators: one
    signal alone never suffices. *)
Theorem analyze_needs_two_indicators (message : string)
    (conversation_history : list string)
    (metadata : gmap string (option string)) :
  let result := analyze message conversation_history metadata in
  (indicators result = [] ↔ confidence result = F64.zero)
  ∧ (is_scam result = true → (2 ≤ length (indicators result))%nat).
Proof.
  pose proof (verdicts_checked thresholds_hold ltac:(by vm_compute)
                message conversation_history metadata) as Hcheck.
  unfold thresholds_hold in Hcheck.
  apply andb_true_iff in Hcheck as [Hzero%bool_decide_eq_true Htwo].
  cbv zeta. split; [done|]. intros Hscam. rewrite Hscam in Htwo.
  apply Z.leb_le in Htwo. lia.
Qed.

Lemma analyze_needs_two_indicators_witness :
  let message :=
    "Also share the OTP we just sent to your phone to confirm your identity."
  in
  is_scam (analyze message [] ∅) = true
  ∧ (2 ≤ length (indicators (analyze message [] ∅)))%nat.
Proof.
  intros message.
  assert (Hscam : is_scam (analyze message [] ∅) = true) by (by vm_compute).
  split; [exact Hscam|].
  exact (proj2 (analyze_needs_two_indicators message [] ∅) Hscam).
Defined.

(** X6. The indicators come in the fixed order of the nine tags, each at
    most once, and the notes are the fixed sentence when there is none and
    otherwise one clause per indicator, in the same order, joined by
    ["; "]; the notes are never empty. *)
Theorem analyze_notes_follow_indicators (message : string)
    (conversation_history : list string)
    (metadata : gmap string (option string)) :
  let result := analyze message conversation_history metadata in
  indicators result `sublist_of` indicator_tags
  ∧ notes result =
      match indicators result with
      | [] => "No significant scam indicators detected"
      | tags => join "; " (indicator_clause <$> tags)
      end
  ∧ notes result ≠ "".
Proof.
  pose proof (verdicts_checked notes_follow ltac:(by vm_compute)
                message conversation_history metadata) as Hcheck.
  unfold notes_follow in Hcheck.
  apply andb_true_iff in Hcheck as [Hcheck Hnonempty].
  apply andb_true_iff in Hcheck
    as [Horder%bool_decide_eq_true Hnotes%bool_decide_eq_true].
  cbv zeta. split_and!.
  - rewrite Horder. apply sublist_filter.
  - done.
  - intros Hempty. by rewrite Hempty in Hnonempty.
Qed.

End Indicators.

(** ** Short messages and the grammar heuristic *)

Section Grammar.

Import ScamDetector.

(** [split]'s scan, with the word under construction. *)
Definition split_go : option string → string → list string :=
  fix go (cur : option string) (s : string) : list string :=
    match s with
    | EmptyString => option_list (String.rev <$> cur)
    | String a s' =>
        if isspace a
        then option_list (String.rev <$> cur) ++ go None s'
        else go (Some (String a (default "" cur))) s'
    end.

Lemma split_unfold (s : string) : split s = split_go None s.
Proof. reflexivity. Qed.

Lemma split_go_length (cur : option string) (s : string) :
  (2 * length (split_go cur s)
   ≤ String.length s + match cur with Some _ => 2 | None => 1 end)%nat.
Proof.
  revert cur. induction s as [|a s IH]; intros cur.
  - destruct cur; cbn; lia.
  - cbn. destruct (isspace a).
    + rewrite length_app. specialize (IH None). cbn in IH.
      destruct cur; cbn; lia.
    + specialize (IH (Some (String a (default "" cur)))). cbn in IH.
      destruct cur; cbn in *; lia.
Qed.

(** X7. A message of at most ten characters is flagged for poor grammar
    exactly when it holds two adjacent marks among [!] and [?]: it is too
    short for the all-capitals rule and has too few words for the
    capitalised-words rule. *)
Theorem short_message_grammar (message : string) :
  len message ≤ 10 →
  (length (split message) ≤ 5)%nat
  ∧ _has_poor_grammar message = search_repeated_marks message.
Proof.
  intros Hshort.
  assert (Hwords : (length (split message) ≤ 5)%nat).
  { rewrite split_unfold. pose proof (split_go_length None message).
    unfold len in Hshort. cbn in *. lia. }
  split; [done|]. unfold _has_poor_grammar.
  destruct (search_repeated_marks message); [done|].
  destruct (Z.ltb_spec 10 (len message)); [lia|]. cbn [andb].
  destruct (Z.ltb_spec 5 (Z.of_nat (length (split message)))); [lia|done].
Qed.

Lemma short_message_grammar_witness :
  len "URGENT!!" ≤ 10
  ∧ (length (split "URGENT!!") ≤ 5)%nat
  ∧ _has_poor_grammar "URGENT!!" = search_repeated_marks "URGENT!!".
Proof.
  assert (Hshort : len "URGENT!!" ≤ 10) by (by vm_compute).
  split; [exact Hshort|]. exact (short_message_grammar "URGENT!!" Hshort).
Defined.

End Grammar.

(** ** Strategies the agent can choose *)

Section Strategies.

Import ScamEngagementAgent.

(** The keys of [self.strategies]. *)
Definition strategy_names : list string :=
  ["ask_for_details"; "request_verification"; "play_along";
   "express_confusion"; "show_urgency"; "request_payment_details"].

Lemma choice_cases rnd (options : list string) (P : string → Prop) :
  options ≠ [] → Forall P options → P (choice rnd options).
Proof.
  intros Hne Hall. rewrite Forall_forall in Hall.
  by apply Hall, choice_elem.
Qed.

Ltac each_option :=
  apply choice_cases; [done | repeat constructor; try done].

(** X8. Whatever the message, the stage and the random draw, the strategy
    chosen is a key of the strategy table.  Payment details are requested
    only from a message that carries a payment keyword, verification only
    at a message count of 3 to 5 from a message with [verify] or
    [confirm], confusion is expressed only at a count of at most 2 after
    an urgency word, and urgency is shown only past a count of 2. *)
Theorem determine_strategy_known (rnd : nat) (incoming_message : string)
    (message_count : Z) (scam_indicators : list string)
    (session_context : Session) :
  let strategy :=
    _determine_strategy rnd incoming_message message_count
      scam_indicators session_context in
  strategy ∈ strategy_names
  ∧ (strategy = "request_payment_details" →
     any_in payment_triggers (lower incoming_message) = true)
  ∧ (strategy = "request_verification" →
     2 < message_count ≤ 5
     ∧ any_in ["verify"; "confirm"] (lower incoming_message) = true)
  ∧ (strategy = "express_confusion" →
     message_count ≤ 2
     ∧ any_in ["urgent"; "immediately"; "block"] (lower incoming_message)
       = true)
  ∧ (strategy = "show_urgency" → 2 < message_count).
Proof.
  cbv zeta.
  set (P := λ strategy : string,
    strategy ∈ strategy_names
    ∧ (strategy = "request_payment_details" →
       any_in payment_triggers (lower incoming_message) = true)
    ∧ (strategy = "request_verification" →
       2 < message_count ≤ 5
       ∧ any_in ["verify"; "confirm"] (lower incoming_message) = true)
    ∧ (strategy = "express_confusion" →
       message_count ≤ 2
       ∧ any_in ["urgent"; "immediately"; "block"] (lower incoming_message)
         = true)
    ∧ (strategy = "show_urgency" → 2 < message_count)).
  enough (HP : P (_determine_strategy rnd incoming_message message_count
                    scam_indicators session_context)) by exact HP.
  unfold _determine_strategy.
  assert (Hin : ∀ name, In name strategy_names → name ∈ strategy_names)
    by (intros; by apply list_elem_of_In).
  destruct (Z.leb_spec message_count 2) as [Hearly|Hlater].
  - destruct (any_in payment_triggers _) eqn:Hpay.
    { unfold P. split_and!; try done. apply Hin. cbn. tauto. }
    destruct (any_in ["urgent"; "immediately"; "block"] _) eqn:Hurgent;
      each_option; unfold P; split_and!; try done; apply Hin; cbn; tauto.
  - destruct (Z.leb_spec message_count 5) as [Hmiddle|Hlate].
    + destruct (any_in ["verify"; "confirm"] _) eqn:Hverify.
      { each_option; unfold P; split_and!; try done;
          (apply Hin; cbn; tauto) || (intros _; split; [lia | done]). }
      destruct (any_in payment_triggers _) eqn:Hpay.
      { unfold P. split_and!; try done. apply Hin. cbn. tauto. }
      destruct (any_in link_triggers _).
      { unfold P. split_and!; try done. apply Hin. cbn. tauto. }
      each_option; unfold P; split_and!; try done;
        (apply Hin; cbn; tauto) || (intros _; lia).
    + destruct (any_in payment_triggers _) eqn:Hpay.
      { unfold P. split_and!; try done. apply Hin. cbn. tauto. }
      destruct (any_in link_triggers _).
      { unfold P. split_and!; try done. apply Hin. cbn. tauto. }
      each_option; unfold P; split_and!; try done;
        (apply Hin; cbn; tauto) || (intros _; lia).
Qed.

Lemma determine_strategy_known_witness :
  let incoming_message := "Send the money to this UPI now" in
  _determine_strategy 3 incoming_message 1 [] (Main.new_session "")
  = "request_payment_details"
  ∧ any_in payment_triggers (lower incoming_message) = true.
Proof.
  intros incoming_message.
  assert (Hstrategy :
    _determine_strategy 3 incoming_message 1 [] (Main.new_session "")
    = "request_payment_details") by reflexivity.
  split; [exact Hstrategy|].
  exact (proj1 (proj2 (determine_strategy_known 3 incoming_message 1 []
                         (Main.new_session ""))) Hstrategy).
Defined.

End Strategies.

(** ** Ending is monotone in what the session holds *)

Section Ending.

Import ScamEngagementAgent.

Lemma should_end_cases (session : Session) (recent_messages : list Message) :
  should_end_conversation session recent_messages = true ↔
    (20 ≤ length (messages session))%nat
    ∨ (at_least_two_categories session
       ∧ (12 ≤ length (messages session))%nat)
    ∨ voices_suspicion recent_messages.
Proof.
  unfold should_end_conversation.
  rewrite <- (sufficiency_spec session), <- suspicion_spec. cbv zeta.
  unfold payment_categories.
  destruct (Z.leb_spec 20 (Z.of_nat (length (messages session))));
    [split; [left; lia | done]|].
  destruct (Z.leb_spec 12 (Z.of_nat (length (messages session))));
    rewrite ?andb_true_r, ?andb_false_r;
    repeat match goal with
           | |- context [if ?b then true else _] => destruct b
           end;
    intuition (done || lia).
Qed.

(** X9. With the same recent messages, a session that has at least as
    many messages and has every payment category populated that another
    one has, ends whenever the other one ends: more messages or more
    intelligence never turn an ending session back into a running one. *)
Theorem should_end_conversation_monotone (session later : Session)
    (recent_messages : list Message) :
  (length (messages session) ≤ length (messages later))%nat →
  (∀ key, key ∈ payment_categories →
          category session key ≠ [] → category later key ≠ []) →
  should_end_conversation session recent_messages = true →
  should_end_conversation later recent_messages = true.
Proof.
  intros Hlen Hintel. rewrite !should_end_cases.
  intros [?|[[(k1 & k2 & ? & ? & ? & ? & ?) ?]|?]]; [left; lia | | auto].
  right; left. split; [|lia]. exists k1, k2. split_and!; auto.
Qed.

Lemma should_end_conversation_monotone_witness :
  let intel : gmap string (list string) :=
    <["upiIds" := ["fraud@ybl"]]>
    (<["phoneNumbers" := ["+919876543210"]]> empty_intelligence) in
  let session :=
    mkSession (replicate 12 (mkMessage "scammer" "share the otp" ""))
      true F64.one intel [] "" in
  let later :=
    mkSession (replicate 14 (mkMessage "scammer" "share the otp" ""))
      true F64.one (<["bankAccounts" := ["1234****9012"]]> intel) [] "" in
  should_end_conversation session [] = true
  ∧ should_end_conversation later [] = true.
Proof.
  intros intel session later.
  assert (Hend : should_end_conversation session [] = true) by reflexivity.
  split; [exact Hend|].
  refine (should_end_conversation_monotone session later [] _ _ Hend).
  - cbn. lia.
  - intros key Hkey. unfold payment_categories in Hkey.
    repeat (apply elem_of_cons in Hkey as [->|Hkey]);
      [..|by apply elem_of_nil in Hkey]; by vm_compute.
Defined.

End Ending.

(** ** One call of the orchestrator, in full *)

Section Calls.

Import Main.
Context `{Regex} `{SetOrder}.

(** The classification a call computes. *)
Definition classification_of (request : IncomingMessageRequest)
  : ScamDetector.Classification :=
  ScamDetector.analyze (text (message request))
    (text <$> conversationHistory request)
    (default ∅ (metadata request)).

(** The messages a call appends: the incoming one and, when the message is
    classified as a scam and the agent answers, the agent's reply. *)
Definition appended (env : Env) (request : IncomingMessageRequest)
  : list Message :=
  match agent_reply env with
  | inl reply =>
      if ScamDetector.is_scam (classification_of request)
      then [message request; mkMessage "user" reply (now_replied env)]
      else [message request]
  | inr _ => [message request]
  end.

Lemma handle_message_stored env request sessions :
  ∃ session,
    store_after env request sessions !! sessionId request = Some session
    ∧ messages session
      = messages (session_before env request sessions) ++ appended env request
    ∧ created_at session = created_at (session_before env request sessions)
    ∧ agent_notes (session_before env request sessions)
      `prefix_of` agent_notes session
    ∧ scam_detected session = ScamDetector.is_scam (classification_of request)
    ∧ confidence_score session
      = ScamDetector.confidence (classification_of request).
Proof.
  unfold store_after, handle_message, appended, classification_of,
    session_before. cbv zeta.
  destruct (agent_reply env) as [reply|error]; [case_match|]; cbn;
    rewrite lookup_insert_eq; eexists; (split; [reflexivity|]); cbn;
    rewrite <- ?app_assoc; split_and!; try done;
    try case_match; try done; by apply prefix_app_r.
Qed.

(** X10. A call changes no session but the one it addresses, and along
    any sequence of calls a stored session keeps its creation time while
    its message log and its notes only grow at the end. *)
Theorem sessions_are_append_only
    (calls : list (Env * IncomingMessageRequest))
    (sessions : gmap string Session) (session_id : string)
    (session : Session) :
  sessions !! session_id = Some session →
  (∀ env request, sessionId request ≠ session_id →
     store_after env request sessions !! session_id = Some session)
  ∧ ∃ later,
      run calls sessions !! session_id = Some later
      ∧ messages session `prefix_of` messages later
      ∧ agent_notes session `prefix_of` agent_notes later
      ∧ created_at later = created_at session.
Proof.
  intros Hstored. split.
  { intros env request Hother. by rewrite handle_message_other. }
  revert sessions session Hstored.
  induction calls as [|[env request] rest IH]; intros sessions session Hstored.
  { exists session. by split_and!. }
  cbn [run]. destruct (decide (sessionId request = session_id)) as [<-|Hother].
  - destruct (handle_message_stored env request sessions)
      as (next & Hnext & Hmsgs & Hcreated & Hnotes & _).
    unfold session_before in *. rewrite Hstored in *. cbn in *.
    destruct (IH _ _ Hnext) as (later & ? & ? & ? & ?).
    exists later. split_and!; [done | | | congruence].
    + etrans; [|done]. rewrite Hmsgs. by apply prefix_app_r.
    + by etrans.
  - apply IH. by rewrite handle_message_other.
Qed.

(** X11. The response agrees with what is stored.  When the agent
    answers, the call returns success with the agent's reply and the
    classification of the message, the same flag and confidence the
    session now holds; a final report is handed over only for a message
    classified as a scam, and it counts the messages the session holds,
    the agent's reply last, and carries its intelligence.  When the agent
    raises, the call raises a 500 and hands over no report, yet the
    incoming message is recorded. *)
Theorem response_matches_store (env : Env) (request : IncomingMessageRequest)
    (sessions : gmap string Session) :
  let outcome := (handle_message env request sessions).1.1 in
  let report := (handle_message env request sessions).1.2 in
  ∃ session,
    store_after env request sessions !! sessionId request = Some session
    ∧ match agent_reply env with
      | inl reply =>
          outcome = Returned (mkAgentResponse "success" reply
                                (Some (scam_detected session))
                                (Some (confidence_score session)))
          ∧ scam_detected session
            = ScamDetector.is_scam (classification_of request)
          ∧ match report with
            | None => True
            | Some payload =>
                scam_detected session = true
                ∧ final_sessionId payload = sessionId request
                ∧ final_scamDetected payload = true
                ∧ totalMessagesExchanged payload
                  = Z.of_nat (length (messages session))
                ∧ extractedIntelligence payload = intelligence session
                ∧ last (messages session)
                  = Some (mkMessage "user" reply (now_replied env))
            end
      | inr error =>
          outcome = HTTPException 500 ("Internal server error: " +:+ error)
          ∧ report = None
          ∧ last (messages session) = Some (message request)
      end.
Proof.
  unfold store_after, handle_message, classification_of. cbv zeta.
  set (c := ScamDetector.analyze _ _ _).
  destruct (agent_reply env) as [reply|error];
    [destruct (ScamDetector.is_scam c) eqn:Hscam|]; cbn [fst snd];
    eexists; (split; [apply lookup_insert_eq|]);
    cbn [scam_detected confidence_score messages intelligence].
  - split_and!; [done | done |].
    destruct (ScamEngagementAgent.should_end_conversation _ _); [|done].
    cbn [final_sessionId final_scamDetected totalMessagesExchanged
         extractedIntelligence].
    split_and!; try done. by rewrite last_snoc.
  - by split_and!.
  - split_and!; [done | done | by rewrite last_snoc].
Qed.

Lemma handle_message_scam_report env request sessions reply :
  agent_reply env = inl reply →
  ScamDetector.is_scam (classification_of request) = true →
  ∃ session,
    store_after env request sessions !! sessionId request = Some session
    ∧ messages session
      = messages (session_before env request sessions)
        ++ [message request; mkMessage "user" reply (now_replied env)]
    ∧ (handle_message env request sessions).1.2
      = if ScamEngagementAgent.should_end_conversation session
             (last_five (conversationHistory request ++ [message request]))
        then Some {| final_sessionId := sessionId request;
                     final_scamDetected := true;
                     totalMessagesExchanged :=
                       Z.of_nat (length (messages session));
                     extractedIntelligence := intelligence session;
                     agentNotes :=
                       match agent_notes session with
                       | [] => "Scam engagement completed successfully"
                       | notes => join " | " notes
                       end |}
        else None.
Proof.
  intros Hreply Hscam.
  unfold store_after, handle_message, session_before, classification_of in *.
  cbv zeta.
  set (c := ScamDetector.analyze _ _ _) in *. rewrite Hreply, Hscam.
  cbn [fst snd]. eexists. split; [apply lookup_insert_eq|].
  split; [|reflexivity]. cbn [messages]. by rewrite <- app_assoc.
Qed.

(** X12. The message cap does not latch: for a session already holding
    18 messages or more, every later message that is classified as a scam
    and answered yields a final report again, counting two messages more
    than the session held. *)
Theorem capped_session_reports_again (env : Env)
    (request : IncomingMessageRequest) (sessions : gmap string Session)
    (session : Session) (reply : string) :
  sessions !! sessionId request = Some session →
  (18 ≤ length (messages session))%nat →
  ScamDetector.is_scam (classification_of request) = true →
  agent_reply env = inl reply →
  ∃ payload,
    (handle_message env request sessions).1.2 = Some payload
    ∧ totalMessagesExchanged payload
      = Z.of_nat (length (messages session)) + 2.
Proof.
  intros Hstored Hlen Hscam Hreply.
  destruct (handle_message_scam_report env request sessions reply
              Hreply Hscam) as (stored & _ & Hmsgs & ->).
  unfold session_before in Hmsgs. rewrite Hstored in Hmsgs. cbn in Hmsgs.
  assert (Hcount : length (messages stored)
                   = (length (messages session) + 2)%nat)
    by (rewrite Hmsgs, length_app; cbn; lia).
  assert (Hend : ScamEngagementAgent.should_end_conversation stored
                   (last_five (conversationHistory request ++ [message request]))
                 = true) by (apply should_end_cases; left; lia).
  rewrite Hend. eexists. split; [reflexivity|]. cbn. lia.
Qed.

End Calls.

(** A scan that finds nothing, to run the orchestrator on examples. *)
Definition silent_scans : Regex := λ _ _ _, [].

Lemma sessions_are_append_only_witness :
  let session :=
    mkSession [mkMessage "scammer" "hello" "t0"] false F64.zero
      empty_intelligence [] "t0" in
  let sessions : gmap string Session := {["s1" := session]} in
  let call :=
    (Main.mkEnv "t1" "t2" (inl "ok... and?"),
     Main.mkRequest "s1" (mkMessage "scammer" "Thanks!" "t1") [] None) in
  sessions !! "s1" = Some session
  ∧ ∃ later,
      @run silent_scans first_seen_order [call] sessions !! "s1" = Some later
      ∧ messages session `prefix_of` messages later
      ∧ agent_notes session `prefix_of` agent_notes later
      ∧ created_at later = created_at session.
Proof.
  intros session sessions call.
  assert (Hstored : sessions !! "s1" = Some session) by reflexivity.
  split; [exact Hstored|].
  exact (proj2 (@sessions_are_append_only silent_scans first_seen_order
                  [call] sessions "s1" session Hstored)).
Defined.

Lemma capped_session_reports_again_witness :
  let session :=
    mkSession (replicate 18 (mkMessage "scammer" "share the otp" "t0"))
      true F64.one empty_intelligence [] "t0" in
  let sessions : gmap string Session := {["s1" := session]} in
  let request :=
    Main.mkRequest "s1"
      (mkMessage "scammer"
         "Also share the OTP we just sent to your phone to confirm your identity."
         "t1") [] None in
  let env := Main.mkEnv "t1" "t2" (inl "ok what next?") in
  (sessions !! Main.sessionId request = Some session
   ∧ (18 ≤ length (messages session))%nat
   ∧ ScamDetector.is_scam (classification_of request) = true
   ∧ Main.agent_reply env = inl "ok what next?")
  ∧ ∃ payload,
      (@Main.handle_message silent_scans first_seen_order env request
         sessions).1.2 = Some payload
      ∧ Main.totalMessagesExchanged payload
        = Z.of_nat (length (messages session)) + 2.
Proof.
  intros session sessions request env.
  assert (Hstored : sessions !! Main.sessionId request = Some session)
    by reflexivity.
  assert (Hlen : (18 ≤ length (messages session))%nat) by (cbn; lia).
  assert (Hscam : ScamDetector.is_scam (classification_of request) = true)
    by (by vm_compute).
  assert (Hreply : Main.agent_reply env = inl "ok what next?")
    by reflexivity.
  split; [exact (conj Hstored (conj Hlen (conj Hscam Hreply)))|].
  exact (@capped_session_reports_again silent_scans first_seen_order
           env request sessions session "ok what next?"
           Hstored Hlen Hscam Hreply).
Defined.


(** ** The reply of the language backend *)

Module Backend.

Import Py.

(** The quotation mark, character 34. *)
Definition quote : ascii := "034"%char.

(** [s.endswith(q)] for the quotation mark [q] *)
Fixpoint ends_with_quote (s : string) : bool :=
  match s with
  | EmptyString => false
  | String c EmptyString => Ascii.eqb c quote
  | String _ s' => ends_with_quote s'
  end.

(** [s.rsplit(' ', 1)[0]]: the text before the last space, the whole
    string when it has none. *)
Fixpoint before_last_space (s : string) : string :=
  match s with
  | EmptyString => EmptyString
  | String c s' =>
      if contains " " s' then String c (before_last_space s')
      else if Ascii.eqb c " " then EmptyString else s
  end.

(** The first steps of the clean-up in [_generate_gemini_response]:
    [response.text.strip()] and the removal of one leading and one
    trailing quotation mark. *)
Definition unquoted (response_text : string) : string :=
  let reply := strip response_text in
  let reply :=
    if startswith reply (String quote "") then slice_from 1 reply
    else reply in
  if ends_with_quote reply
  then slice_to (String.length reply - 1) reply
  else reply.

(** What [_generate_gemini_response] returns for the text the backend
    produced. *)
Definition clean_reply (response_text : string) : string :=
  let reply := unquoted response_text in
  if 500 <? len reply
  then before_last_space (slice_to 500 reply) +:+ "..."
  else reply.

End Backend.

Section BackendReply.

Import Backend.

Lemma before_last_space_prefix (s : string) :
  ∃ rest, s = before_last_space s +:+ rest.
Proof.
  induction s as [|c s [rest IH]]; [by exists ""|]. cbn.
  destruct (contains " " s).
  - exists rest. by rewrite append_String, <- IH.
  - destruct (Ascii.eqb c " "); [by exists (String c s)|].
    exists "". by rewrite string_app_nil_r.
Qed.

Lemma length_slice_to_le (n : nat) (s : string) :
  (String.length (slice_to n s) ≤ n)%nat.
Proof.
  revert s; induction n as [|n IH]; intros [|c s]; cbn; try lia.
  specialize (IH s). lia.
Qed.

Lemma contains_space_cons (c : ascii) (s : string) :
  contains " " (String c s) = Ascii.eqb c " " || contains " " s.
Proof.
  change (contains " " (String c s))
    with (String.prefix " " (String c s) || contains " " s).
  f_equal. cbn [String.prefix].
  destruct (ascii_dec " " c) as [<-|Hc]; [by destruct s|].
  destruct (Ascii.eqb_spec c " "); [congruence | done].
Qed.

(** [before_last_space] cuts at the last space and nowhere else. *)
Lemma before_last_space_split (s : string) :
  if contains " " s
  then ∃ word, s = before_last_space s +:+ " " +:+ word
               ∧ contains " " word = false
  else before_last_space s = s.
Proof.
  induction s as [|c s IH]; [done|].
  rewrite contains_space_cons. cbn [before_last_space].
  destruct (contains " " s) eqn:Hs.
  - rewrite orb_true_r. destruct IH as (word & Hword & Hfree).
    exists word. split; [|done]. by rewrite append_String, <- Hword.
  - rewrite orb_false_r. destruct (Ascii.eqb_spec c " ") as [->|Hc]; [|done].
    by exists s.
Qed.

(** X13. The reply kept from the language backend has at most 503
    characters.  An unquoted text of at most 500 characters is kept as it
    is.  A longer one is cut: its first 500 characters are kept up to
    their last space (all 500 when they hold no space), a proper prefix of
    the text, and three dots are added. *)
Theorem clean_reply_bounded (response_text : string) :
  let reply := unquoted response_text in
  len (clean_reply response_text) ≤ 503
  ∧ if len reply <=? 500
    then clean_reply response_text = reply
    else ∃ kept dropped,
           clean_reply response_text = kept +:+ "..."
           ∧ reply = kept +:+ dropped
           ∧ dropped ≠ ""
           ∧ len kept ≤ 500
           ∧ if contains " " (slice_to 500 reply)
             then ∃ word, slice_to 500 reply = kept +:+ " " +:+ word
                          ∧ contains " " word = false
             else kept = slice_to 500 reply.
Proof.
  intros reply. unfold clean_reply. cbv zeta. fold reply.
  rewrite Z.ltb_antisym.
  destruct (Z.leb_spec (len reply) 500) as [Hshort|Hlong]; cbn [negb];
    [split; [lia | done]|].
  destruct (before_last_space_prefix (slice_to 500 reply)) as [rest Hrest].
  pose proof (before_last_space_split (slice_to 500 reply)) as Hcut.
  set (kept := before_last_space (slice_to 500 reply)) in *.
  assert (Hkept : len kept ≤ 500).
  { pose proof (length_slice_to_le 500 reply) as Hle.
    rewrite Hrest, length_append in Hle. unfold len. lia. }
  split.
  - rewrite len_append. change (len "...") with 3. lia.
  - exists kept, (rest +:+ slice_from 500 reply).
    split_and!; [done| | |done|done].
    + rewrite <- string_app_assoc, <- Hrest. apply slice_to_from.
    + intros Hempty.
      assert (Hlen : len (rest +:+ slice_from 500 reply) = 0)
        by (by rewrite Hempty).
      rewrite len_append in Hlen. unfold len in Hlen, Hlong.
      rewrite length_slice_from in Hlen. lia.
Qed.

End BackendReply.

(** ** Reading and deleting sessions *)

Module Readers.

Import Main.

(** The body [get_intelligence] returns. *)
Record IntelligenceView := mkIntelligenceView {
  view_sessionId : string;
  view_scamDetected : bool;
  view_confidenceScore : F64.float;
  view_messagesExchanged : Z;
  view_extractedIntelligence : gmap string (list string);
  view_agentNotes : list string;
  view_createdAt : string
}.

(** [get_session] *)
Definition get_session (session_id : string)
    (sessions : gmap string Session) : Outcome (string * Session) :=
  match sessions !! session_id with
  | None => HTTPException 404 "Session not found"
  | Some session => Returned (session_id, session)
  end.

(** [get_intelligence] *)
Definition get_intelligence (session_id : string)
    (sessions : gmap string Session) : Outcome IntelligenceView :=
  match sessions !! session_id with
  | None => HTTPException 404 "Session not found"
  | Some session =>
      Returned {| view_sessionId := session_id;
                  view_scamDetected := scam_detected session;
                  view_confidenceScore := confidence_score session;
                  view_messagesExchanged :=
                    Z.of_nat (length (messages session));
                  view_extractedIntelligence := intelligence session;
                  view_agentNotes := agent_notes session;
                  view_createdAt := created_at session |}
  end.

End Readers.

Section Lifecycle.

Import Main Readers.
Context `{Regex} `{SetOrder}.

(** X14. Right after a call its session can be read back: it holds the
    messages it held before and those the call appended, and the
    classification of the call's message.  A session the store never held
    cannot be read. *)
Theorem session_readable_after_call (env : Env)
    (request : IncomingMessageRequest) (sessions : gmap string Session) :
  let sessions' := store_after env request sessions in
  (∃ session view,
     get_session (sessionId request) sessions'
     = Returned (sessionId request, session)
     ∧ get_intelligence (sessionId request) sessions' = Returned view
     ∧ view_messagesExchanged view
       = Z.of_nat (length (messages (session_before env request sessions)))
         + Z.of_nat (length (appended env request))
     ∧ view_scamDetected view
       = ScamDetector.is_scam (classification_of request)
     ∧ view_extractedIntelligence view = intelligence session
     ∧ view_createdAt view
       = created_at (session_before env request sessions))
  ∧ (∀ other, sessions' !! other = None →
       get_session other sessions' = HTTPException 404 "Session not found"
       ∧ get_intelligence other sessions'
         = HTTPException 404 "Session not found").
Proof.
  cbv zeta. split.
  - destruct (handle_message_stored env request sessions)
      as (session & Hs & Hmsgs & Hcreated & _ & Hscam & _).
    unfold get_session, get_intelligence. rewrite Hs.
    eexists _, _. split_and!; try reflexivity; cbn.
    + rewrite Hmsgs, length_app. lia.
    + done.
    + done.
  - intros other Hother. unfold get_session, get_intelligence.
    by rewrite Hother.
Qed.

(** X15. Deletion composes with the calls: the session of a call can be
    deleted right after it; a second deletion of the same id always
    raises the 404 and leaves the store alone; and a call for a deleted
    id starts a new session, which holds nothing but what that call
    appended and is stamped with that call's clock. *)
Theorem deletion_composes (env : Env) (request : IncomingMessageRequest)
    (sessions : gmap string Session) (session_id : string) :
  (delete_session (sessionId request) (store_after env request sessions)).1
  = Returned (mkDeleteBody "success"
                ("Session " +:+ sessionId request +:+ " deleted"))
  ∧ (let once := (delete_session session_id sessions).2 in
     delete_session session_id once
     = (HTTPException 404 "Session not found", once))
  ∧ ∃ fresh,
      store_after env request
        (delete_session (sessionId request) sessions).2
        !! sessionId request = Some fresh
      ∧ messages fresh = appended env request
      ∧ created_at fresh = now_created env.
Proof.
  split_and!.
  - destruct (handle_message_stored env request sessions) as (s & Hs & _).
    unfold delete_session. by rewrite Hs.
  - cbv zeta. unfold delete_session at 2 3.
    destruct (sessions !! session_id) eqn:Hid; cbn [snd];
      unfold delete_session; [by rewrite lookup_delete_eq | by rewrite Hid].
  - set (once := (delete_session (sessionId request) sessions).2).
    assert (Hgone : once !! sessionId request = None).
    { subst once. unfold delete_session.
      destruct (sessions !! sessionId request) eqn:Hid; cbn [snd];
        [apply lookup_delete_eq | done]. }
    destruct (handle_message_stored env request once)
      as (fresh & Hs & Hmsgs & Hcreated & _).
    unfold session_before in *. rewrite Hgone in *. cbn in *.
    by exists fresh.
Qed.

End Lifecycle.

(** ** Payment handles *)

Section Handles.

Lemma string_prefix_nil (s : string) : String.prefix "" s = true.
Proof. by destruct s. Qed.

Lemma contains_at_cons (c : ascii) (s : string) :
  contains "@" (String c s) = Ascii.eqb c "@" || contains "@" s.
Proof.
  change (contains "@" (String c s))
    with (String.prefix "@" (String c s) || contains "@" s).
  f_equal. cbn [String.prefix].
  destruct (ascii_dec "@" c) as [<-|Hc]; [by rewrite string_prefix_nil|].
  destruct (Ascii.eqb_spec c "@"); [congruence | done].
Qed.

Lemma after_last_at_split (s : string) :
  contains "@" s = true →
  ∃ name, s = name +:+ "@" +:+ after_last_at s
          ∧ contains "@" (after_last_at s) = false.
Proof.
  induction s as [|c s IH]; [done|].
  rewrite contains_at_cons. cbn [after_last_at].
  destruct (contains "@" s) eqn:Hs.
  - intros _. destruct (IH eq_refl) as (name & Hname & ?).
    exists (String c name). split; [|done].
    by rewrite append_String, <- Hname.
  - rewrite orb_false_r. intros Hc. rewrite Hc.
    apply Ascii.eqb_eq in Hc as ->. by exists "".
Qed.

(** What the validator emits for one candidate. *)
Definition accept_upi (upi : string) : list string :=
  let upi := strip upi in
  if contains "@" upi && (5 <? len upi) then
    let provider := lower (after_last_at upi) in
    if existsb (λ p, contains p provider) valid_providers
       || (len provider <=? 10)
    then [upi] else []
  else [].

Lemma upi_cons (upi : string) (rest : list string) :
  _clean_and_validate_upi (upi :: rest)
  = accept_upi upi ++ _clean_and_validate_upi rest.
Proof. unfold accept_upi. cbn -[len]. by repeat case_match. Qed.

(** X16. The UPI validator only filters: what it emits are stripped
    candidates, in their order.  Each emitted handle is longer than five
    characters and reads [name@provider], where the provider holds no
    further [@] and either contains a known provider name or has at
    most ten characters. *)
Theorem upi_validator_filters (upi_matches : list string) :
  let emitted := _clean_and_validate_upi upi_matches in
  emitted `sublist_of` (strip <$> upi_matches)
  ∧ Forall (λ u,
      5 < len u
      ∧ ∃ name provider,
          u = name +:+ "@" +:+ provider
          ∧ contains "@" provider = false
          ∧ (existsb (λ p, contains p (lower provider)) valid_providers
             = true
             ∨ len provider ≤ 10)) emitted.
Proof.
  cbv zeta. induction upi_matches as [|upi rest [IHsub IHall]].
  { split; [done | constructor]. }
  rewrite upi_cons, fmap_cons. unfold accept_upi. cbv zeta.
  set (u := strip upi).
  destruct (contains "@" u && (5 <? len u)) eqn:Hok;
    [|split; [by apply sublist_cons | done]].
  apply andb_true_iff in Hok as [Hat Hlen%Z.ltb_lt].
  destruct (existsb _ valid_providers || (len (lower (after_last_at u)) <=? 10))
    eqn:Hprovider; [|split; [by apply sublist_cons | done]].
  split; [by apply sublist_skip|]. apply Forall_cons. split; [|done].
  split; [done|].
  destruct (after_last_at_split u Hat) as (name & Hname & Hclean).
  exists name, (after_last_at u). split_and!; [done | done |].
  apply orb_true_iff in Hprovider as [?|Hshort%Z.leb_le]; [by left|].
  right. revert Hshort. unfold len.
  assert (Hlower : ∀ s, String.length (lower s) = String.length s)
    by (intros s; induction s; cbn; congruence).
  by rewrite Hlower.
Qed.

End Handles.

(** ** The vocabulary of the contextual pass *)

Section Vocabulary.

(** Every tag the contextual pass can produce, in the order it appends
    them. *)
Definition tag_vocabulary : list string :=
  ["tax_refund_scam"; "government_impersonation";
   "lottery_scam"; "prize_scam";
   "account_block_scam"; "bank_impersonation";
   "otp_fraud"; "credential_theft";
   "phishing_attempt"; "malicious_link";
   "payment_redirection"; "money_transfer_scam"]
  ++ ((λ app, "uses_" +:+ replace_space app) <$> payment_apps)
  ++ ((λ target, "impersonates_" +:+ replace_space target)
        <$> impersonation_targets).

Lemma extend_tags (tags items : list string) :
  extend "suspiciousKeywords" items
    (<["suspiciousKeywords" := tags]> contact_fields)
  = <["suspiciousKeywords" := tags ++ items]> contact_fields.
Proof.
  unfold extend. apply map_eq. intros key.
  destruct (decide (key = "suspiciousKeywords")) as [->|Hkey].
  - by rewrite lookup_alter_eq, !lookup_insert_eq.
  - by rewrite lookup_alter_ne, !lookup_insert_ne.
Qed.

Lemma extend_if (b : bool) (tags items : list string) :
  (if b
   then extend "suspiciousKeywords" items
          (<["suspiciousKeywords" := tags]> contact_fields)
   else <["suspiciousKeywords" := tags]> contact_fields)
  = <["suspiciousKeywords" := tags ++ (if b then items else [])]>
      contact_fields.
Proof. destruct b; [apply extend_tags | by rewrite app_nil_r]. Qed.

Lemma extend_mentioned (mentioned tags : list string) (f : string → string) :
  match mentioned with
  | [] => <["suspiciousKeywords" := tags]> contact_fields
  | _ => extend "suspiciousKeywords" (f <$> mentioned)
           (<["suspiciousKeywords" := tags]> contact_fields)
  end
  = <["suspiciousKeywords" := tags ++ (f <$> mentioned)]> contact_fields.
Proof. destruct mentioned; [by rewrite app_nil_r | apply extend_tags]. Qed.

Lemma contextual_tags_explicit (text : string) :
  ∃ b1 b2 b3 b4 b5 b6 : bool,
    contextual_tags text =
      (if b1 then ["tax_refund_scam"; "government_impersonation"] else [])
      ++ (if b2 then ["lottery_scam"; "prize_scam"] else [])
      ++ (if b3 then ["account_block_scam"; "bank_impersonation"] else [])
      ++ (if b4 then ["otp_fraud"; "credential_theft"] else [])
      ++ (if b5 then ["phishing_attempt"; "malicious_link"] else [])
      ++ (if b6 then ["payment_redirection"; "money_transfer_scam"] else [])
      ++ ((λ app, "uses_" +:+ replace_space app)
            <$> List.filter (λ app, contains app (lower text)) payment_apps)
      ++ ((λ target, "impersonates_" +:+ replace_space target)
            <$> List.filter (λ target, contains target (lower text))
                  impersonation_targets).
Proof.
  unfold contextual_tags, _extract_contextual_intelligence. cbv zeta.
  change empty_intelligence
    with (<["suspiciousKeywords" := []]> contact_fields).
  rewrite !extend_if, !extend_mentioned, lookup_insert_eq. cbn [default].
  eexists _, _, _, _, _, _. rewrite <- !app_assoc. reflexivity.
Qed.

Lemma sublist_if {A} (b : bool) (l : list A) :
  (if b then l else []) `sublist_of` l.
Proof. destruct b; [done | apply sublist_nil_l]. Qed.

Lemma bool_filter_sublist {A} (f : A → bool) (l : list A) :
  List.filter f l `sublist_of` l.
Proof.
  induction l as [|x l IH]; [done|]. cbn.
  destruct (f x); [by apply sublist_skip | by apply sublist_cons].
Qed.

(** X17. The tags of the contextual pass form a sub-sequence of its fixed
    vocabulary of 26 tags: every tag belongs to the vocabulary, and no tag
    is produced twice. *)
Theorem contextual_tags_in_vocabulary (text : string) :
  contextual_tags text `sublist_of` tag_vocabulary
  ∧ NoDup (contextual_tags text)
  ∧ (length (contextual_tags text) ≤ 26)%nat.
Proof.
  assert (Hsub : contextual_tags text `sublist_of` tag_vocabulary).
  { destruct (contextual_tags_explicit text)
      as (b1 & b2 & b3 & b4 & b5 & b6 & ->).
    unfold tag_vocabulary.
    change ["tax_refund_scam"; "government_impersonation";
            "lottery_scam"; "prize_scam";
            "account_block_scam"; "bank_impersonation";
            "otp_fraud"; "credential_theft";
            "phishing_attempt"; "malicious_link";
            "payment_redirection"; "money_transfer_scam"]
      with (["tax_refund_scam"; "government_impersonation"]
            ++ ["lottery_scam"; "prize_scam"]
            ++ ["account_block_scam"; "bank_impersonation"]
            ++ ["otp_fraud"; "credential_theft"]
            ++ ["phishing_attempt"; "malicious_link"]
            ++ ["payment_redirection"; "money_transfer_scam"]).
    rewrite <- !app_assoc.
    repeat (apply sublist_app; [apply sublist_if|]).
    apply sublist_app; apply fmap_sublist, bool_filter_sublist. }
  assert (Hvocabulary : NoDup tag_vocabulary)
    by (apply (bool_decide_unpack _); by vm_compute).
  split_and!.
  - done.
  - by apply (sublist_NoDup _ tag_vocabulary).
  - apply sublist_length in Hsub.
    assert (Hsize : length tag_vocabulary = 26%nat) by reflexivity. lia.
Qed.

End Vocabulary.

(** ** Notes and suspicion, call by call *)

Section Notes.

Import Main.
Context `{Regex} `{SetOrder}.

Lemma analyze_notes_nonempty message conversation_history metadata :
  String.eqb
    (ScamDetector.notes
       (ScamDetector.analyze message conversation_history metadata)) ""
  = false.
Proof.
  apply negb_true_iff.
  apply (verdicts_checked
           (λ r, negb (String.eqb (ScamDetector.notes r) ""))).
  by vm_compute.
Qed.

(** X18. A call adds to the session's notes exactly the notes of its
    classification when the message is classified as a scam and the agent
    answers, and nothing otherwise: one note per engaged scam message. *)
Theorem notes_recorded_per_scam_message (env : Env)
    (request : IncomingMessageRequest) (sessions : gmap string Session) :
  ∃ session,
    store_after env request sessions !! sessionId request = Some session
    ∧ agent_notes session
      = agent_notes (session_before env request sessions)
        ++ match agent_reply env with
           | inl _ =>
               if ScamDetector.is_scam (classification_of request)
               then [ScamDetector.notes (classification_of request)]
               else []
           | inr _ => []
           end.
Proof.
  unfold store_after, handle_message, session_before, classification_of.
  cbv zeta.
  pose proof (analyze_notes_nonempty (text (message request))
                (text <$> conversationHistory request)
                (default ∅ (metadata request))) as Hnotes.
  set (c := ScamDetector.analyze _ _ _) in *.
  destruct (agent_reply env) as [reply|error];
    [destruct (ScamDetector.is_scam c)|]; cbn [fst snd];
    eexists; (split; [apply lookup_insert_eq|]); cbn [agent_notes];
    rewrite ?Hnotes, ?app_nil_r; done.
Qed.

Lemma last_five_snoc (history : list Message) (msg : Message) :
  ∃ before, last_five (history ++ [msg]) = before ++ [msg].
Proof.
  unfold last_five. rewrite length_app. cbn [length].
  exists (drop (length history + 1 - 5) history).
  rewrite drop_app_le by lia. done.
Qed.

(** X19. When the incoming message comes from the scammer and holds,
    lower-cased, one of the suspicion phrases, a call that classifies it
    as a scam and gets an answer from the agent hands over a final
    report, whatever the session holds. *)
Theorem suspicion_ends_conversation (env : Env)
    (request : IncomingMessageRequest) (sessions : gmap string Session)
    (reply : string) :
  sender (message request) = "scammer" →
  any_in ScamEngagementAgent.suspicious_phrases
    (lower (text (message request))) = true →
  ScamDetector.is_scam (classification_of request) = true →
  agent_reply env = inl reply →
  ∃ payload, (handle_message env request sessions).1.2 = Some payload.
Proof.
  intros Hsender Hphrase Hscam Hreply.
  destruct (handle_message_scam_report env request sessions reply
              Hreply Hscam) as (stored & _ & _ & ->).
  assert (Hend : ScamEngagementAgent.should_end_conversation stored
                   (last_five (conversationHistory request ++ [message request]))
                 = true).
  { apply should_end_cases. right; right.
    apply any_in_spec in Hphrase as (phrase & ? & ?).
    exists (message request), phrase. split_and!; [|done|done].
    destruct (last_five_snoc (conversationHistory request) (message request))
      as [before ->].
    exists before, []. by split_and!. }
  rewrite Hend. by eexists.
Qed.

End Notes.

Lemma suspicion_ends_conversation_witness :
  let request :=
    Main.mkRequest "s1"
      (mkMessage "scammer"
         "Stop asking questions and share the OTP, this is your last chance"
         "t1") [] None in
  let env := Main.mkEnv "t1" "t2" (inl "ok what next?") in
  (sender (Main.message request) = "scammer"
   ∧ any_in ScamEngagementAgent.suspicious_phrases
       (lower (text (Main.message request))) = true
   ∧ ScamDetector.is_scam (classification_of request) = true
   ∧ Main.agent_reply env = inl "ok what next?")
  ∧ ∃ payload,
      (@Main.handle_message silent_scans first_seen_order env request ∅).1.2
      = Some payload.
Proof.
  intros request env.
  assert (Hsender : sender (Main.message request) = "scammer")
    by reflexivity.
  assert (Hphrase : any_in ScamEngagementAgent.suspicious_phrases
                      (lower (text (Main.message request))) = true)
    by (by vm_compute).
  assert (Hscam : ScamDetector.is_scam (classification_of request) = true)
    by (by vm_compute).
  assert (Hreply : Main.agent_reply env = inl "ok what next?")
    by reflexivity.
  split; [exact (conj Hsender (conj Hphrase (conj Hscam Hreply)))|].
  exact (@suspicion_ends_conversation silent_scans first_seen_order
           env request ∅ "ok what next?" Hsender Hphrase Hscam Hreply).
Defined.


(** ** The extractor over the object store *)

Module Store.

Import Py IntelligenceExtractor.

(** Locations are positions in the store. *)
Abbreviation loc := nat (only parsing).

(** The objects [extract] meets: the message dictionaries and the list of
    them it is handed, the lists of strings it builds, and the
    dictionaries that bind keys to such lists, entries in insertion
    order. *)
Inductive object :=
| MessageDict (msg : Message)
| MessageList (items : list loc)
| StringList (items : list string)
| ListDict (entries : list (string * loc)).

Abbreviation heap := (list object) (only parsing).

(** A computation reads and writes the store; it returns a value or
    raises. *)
Definition M (A : Type) : Type := heap → option (A * heap).

Definition ret {A} (a : A) : M A := λ h, Some (a, h).

Definition bind {A B} (k : A → M B) (m : M A) : M B :=
  λ h, match m h with Some (a, h') => k a h' | None => None end.

#[global] Instance M_ret : MRet M := @ret.
#[global] Instance M_bind : MBind M := @bind.

Definition raise {A} : M A := λ _, None.

(** A new object gets the next free location. *)
Definition alloc (o : object) : M loc := λ h, Some (length h, h ++ [o]).

Definition load (l : loc) : M object :=
  λ h, match h !! l with Some o => Some (o, h) | None => None end.

Definition store (l : loc) (o : object) : M unit :=
  λ h, Some ((), <[l := o]> h).

Definition strings (l : loc) : M (list string) :=
  o ← load l;
  match o with StringList items => mret items | _ => raise end.

Definition entries (d : loc) : M (list (string * loc)) :=
  o ← load d;
  match o with ListDict es => mret es | _ => raise end.

Fixpoint lookup_entry (key : string) (es : list (string * loc))
  : option loc :=
  match es with
  | [] => None
  | (k, v) :: rest => if String.eqb k key then Some v else lookup_entry key rest
  end.

(** Binding a key keeps its place when the key is present and adds it
    at the end otherwise. *)
Fixpoint bind_entry (key : string) (v : loc) (es : list (string * loc))
  : list (string * loc) :=
  match es with
  | [] => [(key, v)]
  | (k, w) :: rest =>
      if String.eqb k key then (k, v) :: rest
      else (k, w) :: bind_entry key v rest
  end.

(** [d[key]] *)
Definition getitem (d : loc) (key : string) : M loc :=
  es ← entries d;
  match lookup_entry key es with Some v => mret v | None => raise end.

(** [d[key] = v] *)
Definition setitem (d : loc) (key : string) (v : loc) : M unit :=
  es ← entries d; store d (ListDict (bind_entry key v es)).

(** [l.extend(xs)] *)
Definition extend (l : loc) (xs : list string) : M unit :=
  items ← strings l; store l (StringList (items ++ xs)).

(** [l.append(x)] *)
Definition append (l : loc) (x : string) : M unit :=
  items ← strings l; store l (StringList (items ++ [x])).

(** [for x in xs: body] *)
Fixpoint for_each {A} (xs : list A) (body : A → M unit) : M unit :=
  match xs with
  | [] => mret ()
  | x :: rest => body x;; for_each rest body
  end.

(** [d.update(other)] *)
Definition update (d other : loc) : M unit :=
  es ← entries other; for_each es (λ '(key, v), setitem d key v).

(** A list of strings a callee has built and hands over, or a list
    display. *)
Definition new_list (items : list string) : M loc := alloc (StringList items).

(** The dictionary display with the five keys, each bound to a list of
    its own. *)
Definition new_intelligence : M loc :=
  bank ← new_list [];
  upi ← new_list [];
  links ← new_list [];
  phones ← new_list [];
  keywords ← new_list [];
  alloc (ListDict [("bankAccounts", bank); ("upiIds", upi);
                   ("phishingLinks", links); ("phoneNumbers", phones);
                   ("suspiciousKeywords", keywords)]).

Fixpoint messages_at (refs : list loc) : M (list Message) :=
  match refs with
  | [] => mret []
  | r :: rest =>
      o ← load r;
      match o with
      | MessageDict msg => msgs ← messages_at rest; mret (msg :: msgs)
      | _ => raise
      end
  end.

(** [[msg.get("text", "") for msg in conversation
      if msg.get("sender") == "scammer"]] *)
Definition scammer_texts (conversation : loc) : M (list string) :=
  o ← load conversation;
  match o with
  | MessageList refs =>
      msgs ← messages_at refs;
      mret (text <$> filter (λ msg, sender msg = "scammer") msgs)
  | _ => raise
  end.

(** [additional_intel["suspiciousKeywords"].extend(tags)] *)
Definition tag (additional_intel : loc) (tags : list string) : M unit :=
  l ← getitem additional_intel "suspiciousKeywords"; extend l tags.

(** [_extract_contextual_intelligence] *)
Definition _extract_contextual_intelligence (text : string) : M loc :=
  additional_intel ← new_intelligence;
  let text_lower := lower text in
  (if any_in ["tax refund"; "income tax"; "refund pending"] text_lower
   then tag additional_intel ["tax_refund_scam"; "government_impersonation"]
   else mret ());;
  (if any_in ["won prize"; "lottery"; "winner"; "congratulations"] text_lower
   then tag additional_intel ["lottery_scam"; "prize_scam"]
   else mret ());;
  (if any_in ["account blocked"; "account suspended"; "kyc pending"] text_lower
   then tag additional_intel ["account_block_scam"; "bank_impersonation"]
   else mret ());;
  (if any_in ["share otp"; "tell otp"; "send otp"] text_lower
   then tag additional_intel ["otp_fraud"; "credential_theft"]
   else mret ());;
  (if any_in ["click link"; "open link"; "visit website"] text_lower
   then tag additional_intel ["phishing_attempt"; "malicious_link"]
   else mret ());;
  (if any_in ["transfer to"; "send money to"; "pay to"] text_lower
   then tag additional_intel ["payment_redirection"; "money_transfer_scam"]
   else mret ());;
  let mentioned_apps :=
    List.filter (λ app, contains app text_lower) payment_apps in
  match mentioned_apps with
  | [] => mret ()
  | _ => tag additional_intel
           ((λ app, "uses_" +:+ replace_space app) <$> mentioned_apps)
  end;;
  let mentioned_targets :=
    List.filter (λ target, contains target text_lower)
      impersonation_targets in
  match mentioned_targets with
  | [] => mret ()
  | _ => tag additional_intel
           ((λ target, "impersonates_" +:+ replace_space target)
              <$> mentioned_targets)
  end;;
  mret additional_intel.

(** [intelligence[key] = list(set(intelligence[key]))] when the entry is a
    list; a list of dictionaries cannot be made a set. *)
Definition dedupe `{SetOrder} (intelligence : loc) (key : string) : M unit :=
  l ← getitem intelligence key;
  o ← load l;
  match o with
  | StringList items =>
      r ← new_list (list_set items); setitem intelligence key r
  | MessageList _ => raise
  | _ => mret ()
  end.

(** [extract] *)
Definition extract `{Regex} `{SetOrder} (conversation : loc)
    (latest_message : string) : M loc :=
  intelligence ← new_intelligence;
  texts ← scammer_texts conversation;
  let all_text := join " " texts +:+ " " +:+ latest_message in
  let upi_matches := re_findall pattern_upi true all_text in
  r ← new_list (_clean_and_validate_upi upi_matches);
  setitem intelligence "upiIds" r;;
  let phone_matches := re_findall pattern_phone false all_text in
  r ← new_list (_clean_and_validate_phones phone_matches);
  setitem intelligence "phoneNumbers" r;;
  let account_matches := re_findall pattern_account false all_text in
  r ← new_list (_clean_and_validate_accounts account_matches);
  setitem intelligence "bankAccounts" r;;
  let url_matches := re_findall pattern_url true all_text in
  r ← new_list (_clean_and_validate_urls url_matches);
  setitem intelligence "phishingLinks" r;;
  let ifsc_matches := re_findall pattern_ifsc false all_text in
  for_each ifsc_matches
    (λ ifsc, l ← getitem intelligence "bankAccounts";
             append l ("IFSC:" +:+ ifsc));;
  let text_lower := lower all_text in
  let found_keywords :=
    List.filter (λ kw, contains kw text_lower) suspicious_keywords in
  r ← new_list (list_set found_keywords);
  setitem intelligence "suspiciousKeywords" r;;
  other ← _extract_contextual_intelligence all_text;
  update intelligence other;;
  es ← entries intelligence;
  for_each es.*1 (dedupe intelligence);;
  mret intelligence.

End Store.

Section StoreRuns.

Import Py IntelligenceExtractor.
Import Store.

Implicit Types (h news : heap) (k d l : nat).

Lemma bind_run {A B} (m : M A) (f : A → M B) h a h' :
  m h = Some (a, h') → (m ≫= f) h = f a h'.
Proof. intros Hm. unfold mbind, M_bind, bind. by rewrite Hm. Qed.

Lemma lookup_new h news k : (h ++ news) !! (length h + k)%nat = news !! k.
Proof.
  rewrite lookup_app_r by lia. f_equal. lia.
Qed.

Lemma alloc_run o h news :
  alloc o (h ++ news)
  = Some ((length h + length news)%nat, h ++ (news ++ [o])).
Proof. unfold alloc. by rewrite length_app, <- app_assoc. Qed.

Lemma new_list_run items h news :
  new_list items (h ++ news)
  = Some ((length h + length news)%nat, h ++ (news ++ [StringList items])).
Proof. apply alloc_run. Qed.

Lemma load_run h news k o :
  news !! k = Some o →
  load (length h + k)%nat (h ++ news) = Some (o, h ++ news).
Proof. intros Hk. unfold load. by rewrite lookup_new, Hk. Qed.

Lemma store_run h news k o :
  store (length h + k)%nat o (h ++ news) = Some ((), h ++ <[k := o]> news).
Proof. unfold store. by rewrite insert_app_r. Qed.

Lemma strings_run h news k items :
  news !! k = Some (StringList items) →
  strings (length h + k)%nat (h ++ news) = Some (items, h ++ news).
Proof.
  intros Hk. unfold strings. by rewrite (bind_run _ _ _ _ _ (load_run _ _ _ _ Hk)).
Qed.

Lemma entries_run h news k es :
  news !! k = Some (ListDict es) →
  entries (length h + k)%nat (h ++ news) = Some (es, h ++ news).
Proof.
  intros Hk. unfold entries. by rewrite (bind_run _ _ _ _ _ (load_run _ _ _ _ Hk)).
Qed.

Lemma getitem_run h news k key es v :
  news !! k = Some (ListDict es) →
  lookup_entry key es = Some v →
  getitem (length h + k)%nat key (h ++ news) = Some (v, h ++ news).
Proof.
  intros Hk Hkey. unfold getitem.
  by rewrite (bind_run _ _ _ _ _ (entries_run _ _ _ _ Hk)), Hkey.
Qed.

Lemma setitem_run h news k key v es :
  news !! k = Some (ListDict es) →
  setitem (length h + k)%nat key v (h ++ news)
  = Some ((), h ++ <[k := ListDict (bind_entry key v es)]> news).
Proof.
  intros Hk. unfold setitem.
  rewrite (bind_run _ _ _ _ _ (entries_run _ _ _ _ Hk)). apply store_run.
Qed.

Lemma extend_run h news k items xs :
  news !! k = Some (StringList items) →
  extend (length h + k)%nat xs (h ++ news)
  = Some ((), h ++ <[k := StringList (items ++ xs)]> news).
Proof.
  intros Hk. unfold extend.
  rewrite (bind_run _ _ _ _ _ (strings_run _ _ _ _ Hk)). apply store_run.
Qed.

Lemma append_run h news k items x :
  news !! k = Some (StringList items) →
  append (length h + k)%nat x (h ++ news)
  = Some ((), h ++ <[k := StringList (items ++ [x])]> news).
Proof.
  intros Hk. unfold append.
  rewrite (bind_run _ _ _ _ _ (strings_run _ _ _ _ Hk)). apply store_run.
Qed.

(** The loop that appends to the list bound under a key. *)
Lemma append_each_run h news d l key es items (f : string → string) xs :
  news !! d = Some (ListDict es) →
  lookup_entry key es = Some (length h + l)%nat →
  news !! l = Some (StringList items) →
  for_each xs (λ x, r ← getitem (length h + d)%nat key; append r (f x))
    (h ++ news)
  = Some ((), h ++ <[l := StringList (items ++ (f <$> xs))]> news).
Proof.
  intros Hd Hkey. revert news items Hd.
  induction xs as [|x xs IH]; intros news items Hd Hl.
  - cbn. rewrite app_nil_r, list_insert_id; done.
  - cbn [for_each].
    assert (Hne : l ≠ d) by (intros ->; congruence).
    assert (Hlt : (l < length news)%nat) by by eapply lookup_lt_Some.
    erewrite bind_run; last first.
    { erewrite bind_run by by eapply getitem_run.
      by eapply append_run. }
    rewrite IH with (items := items ++ [f x]).
    + by rewrite list_insert_insert_eq, fmap_cons, <- app_assoc.
    + by rewrite list_lookup_insert_ne.
    + by rewrite list_lookup_insert_eq.
Qed.

(** One conditional step of the contextual pass. *)
Lemma tag_run h news d l es items tags :
  news !! d = Some (ListDict es) →
  lookup_entry "suspiciousKeywords" es = Some (length h + l)%nat →
  news !! l = Some (StringList items) →
  tag (length h + d)%nat tags (h ++ news)
  = Some ((), h ++ <[l := StringList (items ++ tags)]> news).
Proof.
  intros Hd Hkey Hl. unfold tag.
  erewrite bind_run by by eapply getitem_run.
  by eapply extend_run.
Qed.

Lemma tag_if_run (b : bool) h news d l es items tags :
  news !! d = Some (ListDict es) →
  lookup_entry "suspiciousKeywords" es = Some (length h + l)%nat →
  news !! l = Some (StringList items) →
  (if b then tag (length h + d)%nat tags else mret ()) (h ++ news)
  = Some ((), h ++ <[l := StringList (items ++ (if b then tags else []))]>
                     news).
Proof.
  intros Hd Hkey Hl. destruct b; [by eapply tag_run|].
  by rewrite app_nil_r, list_insert_id.
Qed.

Lemma tag_mentioned_run (mentioned : list string) (f : string → string)
    h news d l es items :
  news !! d = Some (ListDict es) →
  lookup_entry "suspiciousKeywords" es = Some (length h + l)%nat →
  news !! l = Some (StringList items) →
  match mentioned with
  | [] => mret ()
  | _ => tag (length h + d)%nat (f <$> mentioned)
  end (h ++ news)
  = Some ((), h ++ <[l := StringList (items ++ (f <$> mentioned))]> news).
Proof.
  intros Hd Hkey Hl. destruct mentioned as [|x xs]; [|by eapply tag_run].
  by rewrite app_nil_r, list_insert_id.
Qed.


Ltac tidy :=
  cbn [length app Nat.add insert list_insert lookup list_lookup
       lookup_entry bind_entry String.eqb Ascii.eqb Bool.eqb fst snd
       fmap list_fmap for_each].

Ltac step lem :=
  erewrite bind_run; [|eapply lem; reflexivity]; tidy.

Ltac rebase lem :=
  rewrite lem, ?length_app, <- ?Nat.add_assoc, <- ?app_assoc; reflexivity.

Lemma new_intelligence_base h :
  new_intelligence h
  = Some ((length h + 5)%nat,
          h ++ [StringList []; StringList []; StringList []; StringList [];
                StringList [];
                ListDict [("bankAccounts", (length h + 0)%nat);
                          ("upiIds", (length h + 1)%nat);
                          ("phishingLinks", (length h + 2)%nat);
                          ("phoneNumbers", (length h + 3)%nat);
                          ("suspiciousKeywords", (length h + 4)%nat)]]).
Proof.
  transitivity (new_intelligence (h ++ [])); [by rewrite app_nil_r|].
  unfold new_intelligence.
  do 5 step new_list_run. apply alloc_run.
Qed.

Lemma new_intelligence_run h news :
  new_intelligence (h ++ news)
  = Some ((length h + (length news + 5))%nat,
          h ++ (news ++
                [StringList []; StringList []; StringList []; StringList [];
                 StringList [];
                 ListDict
                   [("bankAccounts", (length h + (length news + 0))%nat);
                    ("upiIds", (length h + (length news + 1))%nat);
                    ("phishingLinks", (length h + (length news + 2))%nat);
                    ("phoneNumbers", (length h + (length news + 3))%nat);
                    ("suspiciousKeywords",
                     (length h + (length news + 4))%nat)]])).
Proof. rebase new_intelligence_base. Qed.

(** The tags of the contextual pass, rule by rule. *)
Lemma contextual_tags_rules (text : string) :
  contextual_tags text
  = [] ++ (if any_in ["tax refund"; "income tax"; "refund pending"]
                (lower text)
           then ["tax_refund_scam"; "government_impersonation"] else [])
    ++ (if any_in ["won prize"; "lottery"; "winner"; "congratulations"]
             (lower text)
        then ["lottery_scam"; "prize_scam"] else [])
    ++ (if any_in ["account blocked"; "account suspended"; "kyc pending"]
             (lower text)
        then ["account_block_scam"; "bank_impersonation"] else [])
    ++ (if any_in ["share otp"; "tell otp"; "send otp"] (lower text)
        then ["otp_fraud"; "credential_theft"] else [])
    ++ (if any_in ["click link"; "open link"; "visit website"] (lower text)
        then ["phishing_attempt"; "malicious_link"] else [])
    ++ (if any_in ["transfer to"; "send money to"; "pay to"] (lower text)
        then ["payment_redirection"; "money_transfer_scam"] else [])
    ++ ((λ app, "uses_" +:+ replace_space app)
          <$> List.filter (λ app, contains app (lower text)) payment_apps)
    ++ ((λ target, "impersonates_" +:+ replace_space target)
          <$> List.filter (λ target, contains target (lower text))
                impersonation_targets).
Proof.
  unfold contextual_tags, IntelligenceExtractor._extract_contextual_intelligence.
  cbv zeta.
  change empty_intelligence
    with (<["suspiciousKeywords" := []]> contact_fields).
  rewrite !extend_if, !extend_mentioned, lookup_insert_eq. cbn [default].
  by rewrite <- !app_assoc.
Qed.

Lemma contextual_base (text : string) h :
  _extract_contextual_intelligence text h
  = Some ((length h + 5)%nat,
          h ++ [StringList []; StringList []; StringList []; StringList [];
                StringList (contextual_tags text);
                ListDict [("bankAccounts", (length h + 0)%nat);
                          ("upiIds", (length h + 1)%nat);
                          ("phishingLinks", (length h + 2)%nat);
                          ("phoneNumbers", (length h + 3)%nat);
                          ("suspiciousKeywords", (length h + 4)%nat)]]).
Proof.
  transitivity (_extract_contextual_intelligence text (h ++ []));
    [by rewrite app_nil_r|].
  unfold _extract_contextual_intelligence. cbv zeta.
  step new_intelligence_run.
  do 6 step tag_if_run.
  do 2 step tag_mentioned_run.
  rewrite contextual_tags_rules, <- !app_assoc. reflexivity.
Qed.

Lemma contextual_run (text : string) h news :
  _extract_contextual_intelligence text (h ++ news)
  = Some ((length h + (length news + 5))%nat,
          h ++ (news ++
                [StringList []; StringList []; StringList []; StringList [];
                 StringList (contextual_tags text);
                 ListDict
                   [("bankAccounts", (length h + (length news + 0))%nat);
                    ("upiIds", (length h + (length news + 1))%nat);
                    ("phishingLinks", (length h + (length news + 2))%nat);
                    ("phoneNumbers", (length h + (length news + 3))%nat);
                    ("suspiciousKeywords",
                     (length h + (length news + 4))%nat)]])).
Proof. rebase contextual_base. Qed.

Lemma dedupe_run `{SetOrder} h news d l key es items :
  news !! d = Some (ListDict es) →
  lookup_entry key es = Some (length h + l)%nat →
  news !! l = Some (StringList items) →
  dedupe (length h + d)%nat key (h ++ news)
  = Some ((), h ++ <[d := ListDict
                            (bind_entry key (length h + length news)%nat es)]>
                     (news ++ [StringList (list_set items)])).
Proof.
  intros Hd Hkey Hl. unfold dedupe.
  erewrite bind_run by by eapply getitem_run.
  erewrite bind_run by by eapply load_run.
  cbv beta iota.
  erewrite bind_run by apply new_list_run.
  eapply setitem_run. by apply lookup_app_l_Some.
Qed.

(** The store holds, at [conversation], a list of message dictionaries
    whose contents are [msgs]. *)
Definition holds_conversation h (conversation : loc) (msgs : list Message)
  : Prop :=
  ∃ refs,
    h !! conversation = Some (MessageList refs)
    ∧ Forall2 (λ r msg, h !! r = Some (MessageDict msg)) refs msgs.

(** Every object of [h] is found in [h'], at its location and as it was. *)
Definition unchanged h h' : Prop :=
  ∀ l o, h !! l = Some o → h' !! l = Some o.

Lemma unchanged_app h news : unchanged h (h ++ news).
Proof. intros l o. apply lookup_app_l_Some. Qed.

Lemma holds_conversation_unchanged h h' conversation msgs :
  unchanged h h' →
  holds_conversation h conversation msgs →
  holds_conversation h' conversation msgs.
Proof.
  intros Hsame (refs & Hlist & Hmsgs). exists refs. split; [by apply Hsame|].
  eapply Forall2_impl; [exact Hmsgs|]. intros r msg. apply Hsame.
Qed.

Lemma messages_at_run h refs msgs :
  Forall2 (λ r msg, h !! r = Some (MessageDict msg)) refs msgs →
  messages_at refs h = Some (msgs, h).
Proof.
  induction 1 as [|r msg refs msgs Hr _ IH]; [done|].
  cbn [messages_at].
  erewrite bind_run by (unfold load; by rewrite Hr).
  cbv beta iota. by erewrite bind_run by exact IH.
Qed.

Lemma scammer_texts_run h conversation msgs :
  holds_conversation h conversation msgs →
  scammer_texts conversation h
  = Some (text <$> filter (λ msg, sender msg = "scammer") msgs, h).
Proof.
  intros (refs & Hlist & Hmsgs). unfold scammer_texts.
  erewrite bind_run by (unfold load; by rewrite Hlist).
  cbv beta iota. by erewrite bind_run by by apply messages_at_run.
Qed.

(** The dictionary of lists found at a location, read as a value. *)
Fixpoint read_entries h (es : list (string * loc))
  : option (gmap string (list string)) :=
  match es with
  | [] => Some ∅
  | (key, l) :: rest =>
      match h !! l, read_entries h rest with
      | Some (StringList items), Some m => Some (<[key := items]> m)
      | _, _ => None
      end
  end.

Definition view h (d : loc) : option (gmap string (list string)) :=
  match h !! d with
  | Some (ListDict es) => read_entries h es
  | _ => None
  end.

Lemma extract_run `{Regex} `{SetOrder} h conversation msgs latest_message :
  holds_conversation h conversation msgs →
  ∃ news,
    Store.extract conversation latest_message h
    = Some ((length h + 5)%nat, h ++ news)
    ∧ view (h ++ news) (length h + 5)%nat
      = Some (IntelligenceExtractor.extract msgs latest_message).
Proof.
  intros Hmsgs. eexists. split.
  - transitivity (Store.extract conversation latest_message (h ++ []));
      [by rewrite app_nil_r|].
    unfold Store.extract. cbv zeta.
    step new_intelligence_run.
    erewrite bind_run;
      [|by eapply scammer_texts_run, holds_conversation_unchanged;
           [apply unchanged_app|]].
    fold (all_text_of msgs latest_message).
    set (all_text := all_text_of msgs latest_message).
    do 4 (step new_list_run; step setitem_run).
    step append_each_run.
    step new_list_run. step setitem_run.
    step contextual_run.
    erewrite bind_run;
      [|unfold update; step entries_run; do 5 step setitem_run;
        reflexivity].
    tidy. step entries_run.
    erewrite bind_run; [|do 5 step dedupe_run; reflexivity].
    reflexivity.
  - unfold view. rewrite lookup_new. tidy. cbn [read_entries].
    rewrite !lookup_new. tidy.
    rewrite extract_returns_tags_only, list_set_nil.
    generalize (list_set (contextual_tags (all_text_of msgs latest_message))).
    intros tags. reflexivity.
Qed.

Lemma read_entries_unchanged h h' es m :
  unchanged h h' → read_entries h es = Some m → read_entries h' es = Some m.
Proof.
  intros Hsame. revert m. induction es as [|[key l] es IH]; [done|].
  intros m. cbn [read_entries].
  destruct (h !! l) as [[| |items|]|] eqn:Hl; try done.
  destruct (read_entries h es) as [rest|]; [|done].
  intros [= <-]. by rewrite (Hsame _ _ Hl), (IH rest).
Qed.

Lemma view_unchanged h h' d m :
  unchanged h h' → view h d = Some m → view h' d = Some m.
Proof.
  intros Hsame. unfold view.
  destruct (h !! d) as [[| | |es]|] eqn:Hd; try done.
  rewrite (Hsame _ _ Hd). by apply read_entries_unchanged.
Qed.

(** C8. [extract], run on a store that holds the conversation, returns:
    it reads the conversation, draws on no random source, and writes only
    to objects it has created itself.  Every object that was in the store
    before a call, the conversation list and its message dictionaries
    among them, is there unchanged after it, and the dictionary returned
    is a new object.  A second call on the same conversation and latest
    message, made in the store the first one left and free to enumerate
    its sets in another order, leaves the first result as it was and
    returns a dictionary of its own; read as values, the two results are
    what the function computes from the messages and the latest message,
    and under each of the five keys they hold duplicate-free lists with
    the same elements. *)
Theorem extract_is_deterministic (scans : Regex) (first second : SetOrder)
    (h : heap) (conversation : loc) (msgs : list Message)
    (latest_message : string) :
  holds_conversation h conversation msgs →
  ∃ r1 h1 r2 h2,
    @Store.extract scans first conversation latest_message h = Some (r1, h1)
    ∧ @Store.extract scans second conversation latest_message h1
      = Some (r2, h2)
    ∧ unchanged h h1 ∧ unchanged h1 h2
    ∧ h !! r1 = None ∧ h1 !! r2 = None
    ∧ holds_conversation h2 conversation msgs
    ∧ view h1 r1
      = Some (@IntelligenceExtractor.extract scans first msgs latest_message)
    ∧ view h2 r1 = view h1 r1
    ∧ view h2 r2
      = Some (@IntelligenceExtractor.extract scans second msgs latest_message)
    ∧ Forall (λ key,
        ∃ items1 items2,
          @IntelligenceExtractor.extract scans first msgs latest_message
            !! key = Some items1
          ∧ @IntelligenceExtractor.extract scans second msgs latest_message
              !! key = Some items2
          ∧ NoDup items1 ∧ NoDup items2
          ∧ (∀ x, x ∈ items1 ↔ x ∈ items2)) intelligence_keys
    ∧ dom (@IntelligenceExtractor.extract scans first msgs latest_message)
      = list_to_set intelligence_keys.
Proof.
  intros Hmsgs.
  destruct (@extract_run scans first h conversation msgs latest_message Hmsgs)
    as (news1 & Hrun1 & Hview1).
  assert (Hmsgs1 : holds_conversation (h ++ news1) conversation msgs)
    by (eapply holds_conversation_unchanged; [apply unchanged_app|done]).
  destruct (@extract_run scans second (h ++ news1) conversation msgs
              latest_message Hmsgs1) as (news2 & Hrun2 & Hview2).
  eexists _, _, _, _. split_and!.
  - exact Hrun1.
  - exact Hrun2.
  - apply unchanged_app.
  - apply unchanged_app.
  - apply lookup_ge_None. lia.
  - apply lookup_ge_None. lia.
  - eapply holds_conversation_unchanged; [apply unchanged_app|done].
  - exact Hview1.
  - rewrite Hview1. eapply view_unchanged; [apply unchanged_app|done].
  - exact Hview2.
  - apply Forall_forall. intros key Hkey.
    destruct (@extract_field scans first msgs latest_message
                key Hkey) as (items1 & Hl1 & Hnd1 & Hel1).
    destruct (@extract_field scans second msgs latest_message
                key Hkey) as (items2 & Hl2 & Hnd2 & Hel2).
    exists items1, items2. split_and!; try done.
    intros x. by rewrite Hel1, Hel2.
  - rewrite extract_returns_tags_only. unfold contact_fields.
    rewrite !dom_insert_L. unfold intelligence_keys. cbn. set_solver.
Qed.

End StoreRuns.

Lemma extract_is_deterministic_witness :
  let scammer := mkMessage "scammer" "Share the OTP now" "t1" in
  let user := mkMessage "user" "Which OTP?" "t2" in
  let h := [Store.MessageDict scammer; Store.MessageDict user;
            Store.MessageList [0; 1]%nat] in
  holds_conversation h 2 [scammer; user]
  ∧ ∃ r1 h1 r2 h2,
      @Store.extract silent_scans first_seen_order 2%nat "Send it" h
      = Some (r1, h1)
      ∧ @Store.extract silent_scans reversed_order 2%nat "Send it" h1
        = Some (r2, h2)
      ∧ unchanged h h1 ∧ unchanged h1 h2.
Proof.
  intros scammer user h.
  assert (Hmsgs : holds_conversation h 2 [scammer; user]).
  { exists [0; 1]%nat. split; [reflexivity|].
    repeat constructor. }
  split; [exact Hmsgs|].
  destruct (extract_is_deterministic silent_scans first_seen_order
              reversed_order h 2%nat [scammer; user] "Send it" Hmsgs)
    as (r1 & h1 & r2 & h2 & Hrun1 & Hrun2 & Hsame1 & Hsame2 & _).
  exists r1, h1, r2, h2.
  exact (conj Hrun1 (conj Hrun2 (conj Hsame1 Hsame2))).
Defined.
